(** * Project Health Monitor: the metrics and pattern-detection engine

    A shallow embedding of [src/lib/calculations.ts] (the calculation module,
    with the record types of [src/types]) and the properties its design
    document states about it.

    Conventions of the embedding:
    - a JavaScript [number] is an exact rational ([Q]); equality of computed
      numbers is [Qeq] ([==]).  Task fields are finite numbers, and the
      rounding of double arithmetic is not modelled; every division of the
      module is guarded by a length or positivity test;
    - a [Date | null] field is [option Z], the time value in milliseconds of
      a valid date;
    - a string is [string]; the only operations on it are equality, the
      truthiness test and ASCII case-insensitive search;
    - an object literal used as a dictionary is the list of its own
      properties in creation order, together with the properties every
      object inherits from [Object.prototype];
    - a function that can throw returns a [Result]. *)

From Stdlib Require Import String Ascii Bool Arith ZArith NArith QArith.
From Stdlib Require Import Qround Qabs Qminmax Lia Lqa.
From Stdlib Require Import List Permutation Sorted.
Import ListNotations.

Local Open Scope string_scope.
Local Open Scope Q_scope.
Local Open Scope list_scope.

(** ** JavaScript values and built-ins used by the module *)

Module Js.

(** [arr.length], as a number. *)
Definition len {A : Type} (l : list A) : Q := inject_Z (Z.of_nat (length l)).

(** [x < y] and [x <= y] on numbers. *)
Definition leb (x y : Q) : bool := Qle_bool x y.
Definition ltb (x y : Q) : bool := negb (Qle_bool y x).
Definition gtb (x y : Q) : bool := ltb y x.

(** [Math.round]: the nearest integer, halves rounded up. *)
Definition Math_round (x : Q) : Q := inject_Z (Qfloor (x + (1 # 2))).
Definition Math_max (x y : Q) : Q := Qmax x y.
Definition Math_min (x y : Q) : Q := Qmin x y.
Definition Math_abs (x : Q) : Q := Qabs x.

(** Truthiness of a string, and [s || d]. *)
Definition truthy (s : string) : bool := negb (s =? "")%string.
Definition or_else (s d : string) : string := if truthy s then s else d.

(** [arr.reduce((sum, x) => sum + f(x), 0)]. *)
Definition sum_by {A : Type} (f : A -> Q) (l : list A) : Q :=
  fold_left (fun sum x => sum + f x) l 0.

(** [[...new Set(arr)]]: first occurrences, in order. *)
Fixpoint uniq (l : list string) : list string :=
  match l with
  | [] => []
  | x :: r => x :: filter (fun y => negb (y =? x)%string) (uniq r)
  end.

(** [arr.sort(cmp)]: the sort is stable, and [cmp a b <= 0] keeps [a]
    before [b]. *)
Fixpoint sort_insert {A : Type} (cmp : A -> A -> Q) (x : A) (l : list A) : list A :=
  match l with
  | [] => [x]
  | y :: r => if leb (cmp x y) 0 then x :: y :: r else y :: sort_insert cmp x r
  end.

Fixpoint sort {A : Type} (cmp : A -> A -> Q) (l : list A) : list A :=
  match l with
  | [] => []
  | x :: r => sort_insert cmp x (sort cmp r)
  end.

(** *** Errors *)

Inductive Error : Type := TypeError.

Inductive Result (A : Type) : Type :=
| Ok (a : A)
| Throw (e : Error).
Arguments Ok {A} a.
Arguments Throw {A} e.

Definition bind {A B : Type} (r : Result A) (k : A -> Result B) : Result B :=
  match r with
  | Ok a => k a
  | Throw e => Throw e
  end.

(** *** Case-insensitive search, for [/a|b|c/i.test(s)] with literal
    alternatives.  Case folding only relates ASCII letters. *)

Definition lower (c : ascii) : ascii :=
  let n := nat_of_ascii c in
  if (65 <=? n)%nat && (n <=? 90)%nat then ascii_of_nat (n + 32) else c.

Fixpoint lowercase (s : string) : string :=
  match s with
  | EmptyString => EmptyString
  | String c r => String (lower c) (lowercase r)
  end.

Fixpoint includes (pat s : string) : bool :=
  prefix pat s
  || match s with
     | EmptyString => false
     | String _ r => includes pat r
     end.

Definition test_any_ci (pats : list string) (s : string) : bool :=
  existsb (fun p => includes p (lowercase s)) pats.

(** *** Objects used as dictionaries *)

(** The properties every object literal inherits. *)
Definition object_prototype_names : list string :=
  [ "constructor"; "__defineGetter__"; "__defineSetter__"; "hasOwnProperty";
    "__lookupGetter__"; "__lookupSetter__"; "isPrototypeOf";
    "propertyIsEnumerable"; "toString"; "valueOf"; "__proto__";
    "toLocaleString" ].

Definition inherited (k : string) : bool :=
  existsb (fun n => (n =? k)%string) object_prototype_names.

(** Own properties, in creation order. *)
Definition Dict (V : Type) : Type := list (string * V).

Fixpoint own {V : Type} (o : Dict V) (k : string) : option V :=
  match o with
  | [] => None
  | (k', v) :: r => if (k' =? k)%string then Some v else own r k
  end.

(** What [o[k]] evaluates to: an own value, a member of
    [Object.prototype] (a function or object, truthy, with no [push]), or
    [undefined]. *)
Inductive Lookup (V : Type) : Type :=
| Own (v : V)
| Inherited
| Undefined.
Arguments Own {V} v.
Arguments Inherited {V}.
Arguments Undefined {V}.

Definition get {V : Type} (o : Dict V) (k : string) : Lookup V :=
  match own o k with
  | Some v => Own v
  | None => if inherited k then Inherited else Undefined
  end.

(** [o[k] = v] on a key that is not inherited: in place when [k] is an own
    property, a new last property otherwise. *)
Fixpoint set {V : Type} (o : Dict V) (k : string) (v : V) : Dict V :=
  match o with
  | [] => [(k, v)]
  | (k', v') :: r =>
      if (k' =? k)%string then (k', v) :: r else (k', v') :: set r k v
  end.

(** Array indices: the canonical decimal numerals below 2^32 - 1. *)
Definition digit (c : ascii) : option N :=
  let n := N_of_ascii c in
  if (48 <=? n)%N && (n <=? 57)%N then Some (n - 48)%N else None.

Fixpoint numeral (s : string) (acc : N) : option N :=
  match s with
  | EmptyString => Some acc
  | String c r =>
      match digit c with
      | Some d => numeral r (acc * 10 + d)%N
      | None => None
      end
  end.

Definition array_index (s : string) : option N :=
  match s with
  | EmptyString => None
  | String "0" EmptyString => Some 0%N
  | String "0" _ => None
  | _ =>
      match numeral s 0 with
      | Some n => if (n <=? 4294967294)%N then Some n else None
      | None => None
      end
  end.

Definition is_index (s : string) : bool :=
  match array_index s with Some _ => true | None => false end.

Definition index_of (s : string) : N :=
  match array_index s with Some n => n | None => 0%N end.

Fixpoint index_insert {V : Type} (e : string * V) (l : list (string * V))
  : list (string * V) :=
  match l with
  | [] => [e]
  | e' :: r =>
      if (index_of (fst e) <=? index_of (fst e'))%N
      then e :: e' :: r else e' :: index_insert e r
  end.

(** [Object.entries(o)]: array-index keys in ascending numeric order, then
    the other keys in creation order. *)
Definition entries {V : Type} (o : Dict V) : list (string * V) :=
  fold_right index_insert [] (filter (fun e => is_index (fst e)) o)
  ++ filter (fun e => negb (is_index (fst e))) o.

End Js.

Import Js.

(** ** The record types ([src/types]) *)

Inductive ProjectType : Type := BL | PC | PM | WPM.
Inductive Status : Type := Completed | InProgress | NotStarted.
Inductive RAG : Type := Red | Amber | Green.
Inductive Severity : Type := high | medium | low.
Inductive PatternType : Type :=
| chronic_optimism
| generic_resource_overuse
| critical_path_instability
| resource_hoarding.

Definition Status_eqb (a b : Status) : bool :=
  match a, b with
  | Completed, Completed | InProgress, InProgress | NotStarted, NotStarted => true
  | _, _ => false
  end.

Definition RAG_eqb (a b : RAG) : bool :=
  match a, b with
  | Red, Red | Amber, Amber | Green, Green => true
  | _, _ => false
  end.

Module Task.
Record t : Type := mk {
  portfolioName : string;
  projectName : string;
  typeOfProject : ProjectType;
  workPackageName : string;
  taskId : string;
  taskName : string;
  functionalManager : string;
  plannedDuration : Q;
  actualDuration : Q;
  assignedResource : string;
  plannedBudget : Q;
  totalSpent : Q;
  status : Status;
  baselineStart : option Z;
  baselineEnd : option Z;
  plannedStart : option Z;
  actualStart : option Z;
  plannedEnd : option Z;
  actualEnd : option Z;
  ignoredDependencies : bool;
  resourceUtilisation : Q;
  projectHealthRAG : RAG;
  totalReassessments : Q;
  criticalPathVolatility : Q;
  criticalPathRisk : bool;
  forecastHours : Q;
  actualHours : Q;
  etcHours : Q;
  eacHours : Q
}.
End Task.

Module ManagerMetrics.
Record t : Type := mk {
  manager : string;
  totalTasks : Q;
  completedTasks : Q;
  onTimeStartCount : Q;
  onTimeEndCount : Q;
  forecastAccuracy : Q;
  avgDurationVariance : Q;
  genericResourcePct : Q;
  criticalPathTasks : Q;
  redRAGCount : Q;
  amberRAGCount : Q;
  greenRAGCount : Q;
  performanceScore : Q
}.
End ManagerMetrics.

(** A risk of [topRisks]: the sentence [identifyProjectRisks] renders is
    determined by the kind of risk and the number interpolated in it. *)
Inductive Risk : Type :=
| LowForecastAccuracy (pct : Q)
| HighGenericResourceUsage (pct : Q)
| LargeDurationVariance (pct : Q)
| OversizedCriticalPath (pct : Q)
| HighVolatilityTasks (n : Q)
| OverBudgetTasks (n : Q).

Module ProjectMetrics.
Record t : Type := mk {
  projectName : string;
  totalTasks : Q;
  completedPct : Q;
  forecastAccuracy : Q;
  avgDurationVariance : Q;
  genericResourcePct : Q;
  criticalPathTasksPct : Q;
  ragStatus : RAG;
  predictedRAG : RAG;
  topRisks : list Risk
}.

(** [metrics.predictedRAG = v] and [metrics.topRisks = v]. *)
Definition set_predictedRAG (m : t) (v : RAG) : t :=
  mk (projectName m) (totalTasks m) (completedPct m) (forecastAccuracy m)
     (avgDurationVariance m) (genericResourcePct m) (criticalPathTasksPct m)
     (ragStatus m) v (topRisks m).

Definition set_topRisks (m : t) (v : list Risk) : t :=
  mk (projectName m) (totalTasks m) (completedPct m) (forecastAccuracy m)
     (avgDurationVariance m) (genericResourcePct m) (criticalPathTasksPct m)
     (ragStatus m) (predictedRAG m) v.
End ProjectMetrics.

Module RagDistribution.
Record t : Type := mk { Red : Q; Amber : Q; Green : Q }.
End RagDistribution.

Module PortfolioMetrics.
Record t : Type := mk {
  totalProjects : Q;
  totalTasks : Q;
  avgForecastAccuracy : Q;
  genericResourcePct : Q;
  criticalPathTasksPct : Q;
  ragDistribution : RagDistribution.t;
  managerMetrics : list ManagerMetrics.t
}.
End PortfolioMetrics.

(** The [description] of a pattern: its template and the numbers
    interpolated in it. *)
Inductive Description : Type :=
| UnderestimateDuration (managers : Q) (variance : Q)
| UseGenericResources (managers : Q) (pct : Q)
| HighVolatility (tasks : Q) (pct : Q)
| LowUtilisation (managers : Q).

Module BehaviouralPattern.
Record t : Type := mk {
  patternType : PatternType;
  severity : Severity;
  description : Description;
  affectedManagers : list string;
  recommendation : string
}.
End BehaviouralPattern.

(** ** The calculation functions ([src/lib/calculations.ts]) *)

Definition isCompleted (t : Task.t) : bool := Status_eqb (Task.status t) Completed.

Definition managedBy (manager : string) (t : Task.t) : bool :=
  (Task.functionalManager t =? manager)%string.

Definition hasRAG (r : RAG) (t : Task.t) : bool := RAG_eqb (Task.projectHealthRAG t) r.

(** [manager ? ... : ...] on the optional argument: an absent and an empty
    manager both take the second branch. *)
Definition given (manager : option string) : option string :=
  match manager with
  | Some m => if truthy m then Some m else None
  | None => None
  end.

(** [planned && actual && new Date(actual) <= new Date(planned)]. *)
Definition onOrBefore (planned actual : option Z) : bool :=
  match planned, actual with
  | Some p, Some a => (a <=? p)%Z
  | _, _ => false
  end.

Definition calculateForecastAccuracy (tasks : list Task.t) (manager : option string) : Q :=
  let filteredTasks :=
    match given manager with
    | Some m => filter (fun t => managedBy m t && isCompleted t) tasks
    | None => filter isCompleted tasks
    end in
  if (length filteredTasks =? 0)%nat then 0
  else
    let onTime :=
      len (filter (fun t => onOrBefore (Task.plannedEnd t) (Task.actualEnd t))
                  filteredTasks) in
    (onTime / len filteredTasks) * 100.

Definition calculateDurationVariance (tasks : list Task.t) (manager : option string) : Q :=
  let filteredTasks :=
    match given manager with
    | Some m => filter (fun t => managedBy m t && isCompleted t) tasks
    | None => filter isCompleted tasks
    end in
  let validTasks :=
    filter (fun t => gtb (Task.plannedDuration t) 0 && gtb (Task.actualDuration t) 0)
           filteredTasks in
  if (length validTasks =? 0)%nat then 0
  else
    let variances :=
      map (fun t =>
             ((Task.actualDuration t - Task.plannedDuration t) / Task.plannedDuration t)
             * 100)
          validTasks in
    sum_by (fun v => v) variances / len variances.

Definition genericPatterns : list string :=
  [ "resource_"; "generic"; "tbd"; "unassigned"; "placeholder"; "to be determined" ].

Definition isGeneric (t : Task.t) : bool :=
  truthy (Task.assignedResource t) && test_any_ci genericPatterns (Task.assignedResource t).

Definition calculateGenericResourcePercentage (tasks : list Task.t) (manager : option string) : Q :=
  let filteredTasks :=
    match given manager with
    | Some m => filter (managedBy m) tasks
    | None => tasks
    end in
  if (length filteredTasks =? 0)%nat then 0
  else
    let generic := len (filter isGeneric filteredTasks) in
    (generic / len filteredTasks) * 100.

Definition calculateCriticalPathHealth (tasks : list Task.t) : Q :=
  if (length tasks =? 0)%nat then 0
  else
    let criticalTasks := filter Task.criticalPathRisk tasks in
    if (length criticalTasks =? 0)%nat then 100
    else
      let avgVolatility :=
        sum_by Task.criticalPathVolatility criticalTasks / len criticalTasks in
      let criticalPct := (len criticalTasks / len tasks) * 100 in
      let maxVolatility := 10 in
      let volatilityScore :=
        Math_max 0 (Math_min 50 ((1 - avgVolatility / maxVolatility) * 50)) in
      let idealCriticalPct := 20 in
      let concentrationScore :=
        Math_max 0 (Math_min 50 (50 - Math_abs (criticalPct - idealCriticalPct) * 2)) in
      Math_round (volatilityScore + concentrationScore).

Definition calculateResourceUtilisation (tasks : list Task.t) (manager : option string) : Q :=
  let filteredTasks :=
    match given manager with
    | Some m => filter (managedBy m) tasks
    | None => tasks
    end in
  let validTasks := filter (fun t => gtb (Task.resourceUtilisation t) 0) filteredTasks in
  if (length validTasks =? 0)%nat then 0
  else
    let totalUtilisation := sum_by Task.resourceUtilisation validTasks in
    totalUtilisation / len validTasks.

Module weights.
Definition forecastAccuracy : Q := 0.35.
Definition durationVariance : Q := 0.25.
Definition genericResource : Q := 0.20.
Definition criticalPath : Q := 0.10.
Definition ragStatus : Q := 0.10.
End weights.

(** The body of [calculatePerformanceScore] after its five inputs have been
    computed from the tasks: the three derived scores, the weighted sum and the
    rounding. *)
Definition performanceScoreOf
  (forecastAccuracy durationVariance genericResourcePct criticalPathHealth ragScore : Q) : Q :=
  let forecastScore := forecastAccuracy in
  let varianceScore := Math_max 0 (100 - Math_abs durationVariance) in
  let genericScore := Math_max 0 (100 - genericResourcePct) in
  let criticalScore := criticalPathHealth in
  let score :=
    forecastScore * weights.forecastAccuracy +
    varianceScore * weights.durationVariance +
    genericScore * weights.genericResource +
    criticalScore * weights.criticalPath +
    ragScore * weights.ragStatus in
  Math_round score.

Definition ragScoreOf (tasks : list Task.t) : Q :=
  let greenPct := (len (filter (hasRAG Green) tasks) / len tasks) * 100 in
  let amberPct := (len (filter (hasRAG Amber) tasks) / len tasks) * 100 in
  greenPct + amberPct * 0.5.

Definition calculatePerformanceScore (tasks : list Task.t) : Q :=
  if (length tasks =? 0)%nat then 0
  else
    performanceScoreOf
      (calculateForecastAccuracy tasks None)
      (calculateDurationVariance tasks None)
      (calculateGenericResourcePercentage tasks None)
      (calculateCriticalPathHealth tasks)
      (ragScoreOf tasks).

(** The grouping [tasks.reduce((acc, task) => { ... }, {})] shared by the
    manager and the project aggregation: [key] is [task.field || fallback].
    Reading [acc[k]] for a [k] that [Object.prototype] defines finds that
    member, so no array is created and [acc[k].push(task)] throws. *)
Definition groupStep (key : Task.t -> string)
  (acc : Result (Dict (list Task.t))) (task : Task.t) : Result (Dict (list Task.t)) :=
  bind acc (fun o =>
    let k := key task in
    match get o k with
    | Undefined => Ok (set o k [task])
    | Own arr => Ok (set o k (arr ++ [task]))
    | Inherited => Throw TypeError
    end).

Definition groupBy (key : Task.t -> string) (tasks : list Task.t)
  : Result (Dict (list Task.t)) :=
  fold_left (groupStep key) tasks (Ok []).

Definition managerKey (task : Task.t) : string :=
  or_else (Task.functionalManager task) "Unassigned".

Definition projectKey (task : Task.t) : string :=
  or_else (Task.projectName task) "Unnamed Project".

Definition tasksByManager (tasks : list Task.t) := groupBy managerKey tasks.
Definition tasksByProject (tasks : list Task.t) := groupBy projectKey tasks.

Definition managerMetricsOf (entry : string * list Task.t) : ManagerMetrics.t :=
  let (manager, managerTasks) := entry in
  let completedTasks := filter isCompleted managerTasks in
  let onTimeStarts :=
    len (filter (fun t => onOrBefore (Task.plannedStart t) (Task.actualStart t))
                completedTasks) in
  let onTimeEnds :=
    len (filter (fun t => onOrBefore (Task.plannedEnd t) (Task.actualEnd t))
                completedTasks) in
  {| ManagerMetrics.manager := manager;
     ManagerMetrics.totalTasks := len managerTasks;
     ManagerMetrics.completedTasks := len completedTasks;
     ManagerMetrics.onTimeStartCount := onTimeStarts;
     ManagerMetrics.onTimeEndCount := onTimeEnds;
     ManagerMetrics.forecastAccuracy := calculateForecastAccuracy managerTasks None;
     ManagerMetrics.avgDurationVariance := calculateDurationVariance managerTasks None;
     ManagerMetrics.genericResourcePct := calculateGenericResourcePercentage managerTasks None;
     ManagerMetrics.criticalPathTasks := len (filter Task.criticalPathRisk managerTasks);
     ManagerMetrics.redRAGCount := len (filter (hasRAG Red) managerTasks);
     ManagerMetrics.amberRAGCount := len (filter (hasRAG Amber) managerTasks);
     ManagerMetrics.greenRAGCount := len (filter (hasRAG Green) managerTasks);
     ManagerMetrics.performanceScore := calculatePerformanceScore managerTasks |}.

Definition byScoreDescending (a b : ManagerMetrics.t) : Q :=
  ManagerMetrics.performanceScore b - ManagerMetrics.performanceScore a.

Definition calculateManagerMetrics (tasks : list Task.t) : Result (list ManagerMetrics.t) :=
  if (length tasks =? 0)%nat then Ok []
  else
    bind (tasksByManager tasks) (fun tasksByManager =>
      let managerMetrics := map managerMetricsOf (entries tasksByManager) in
      Ok (sort byScoreDescending managerMetrics)).

Definition predictRAGStatus (metrics : ProjectMetrics.t) : RAG :=
  if ltb (ProjectMetrics.forecastAccuracy metrics) 50
     || gtb (ProjectMetrics.genericResourcePct metrics) 80
     || gtb (ProjectMetrics.avgDurationVariance metrics) 25
     || gtb (ProjectMetrics.criticalPathTasksPct metrics) 40
  then Red
  else if ltb (ProjectMetrics.forecastAccuracy metrics) 70
          || gtb (ProjectMetrics.genericResourcePct metrics) 50
          || gtb (ProjectMetrics.avgDurationVariance metrics) 15
          || gtb (ProjectMetrics.criticalPathTasksPct metrics) 30
  then Amber
  else Green.

(** [if (c) risks.push(r)]. *)
Definition pushIf (c : bool) (r : Risk) (risks : list Risk) : list Risk :=
  if c then risks ++ [r] else risks.

Definition identifyProjectRisks (projectTasks : list Task.t) (metrics : ProjectMetrics.t)
  : list Risk :=
  let risks := [] in
  let risks :=
    pushIf (ltb (ProjectMetrics.forecastAccuracy metrics) 60)
           (LowForecastAccuracy (ProjectMetrics.forecastAccuracy metrics)) risks in
  let risks :=
    pushIf (gtb (ProjectMetrics.genericResourcePct metrics) 60)
           (HighGenericResourceUsage (ProjectMetrics.genericResourcePct metrics)) risks in
  let risks :=
    pushIf (gtb (ProjectMetrics.avgDurationVariance metrics) 20)
           (LargeDurationVariance (ProjectMetrics.avgDurationVariance metrics)) risks in
  let risks :=
    pushIf (gtb (ProjectMetrics.criticalPathTasksPct metrics) 35)
           (OversizedCriticalPath (ProjectMetrics.criticalPathTasksPct metrics)) risks in
  let highVolatilityTasks :=
    filter (fun t => gtb (Task.criticalPathVolatility t) 5) projectTasks in
  let risks :=
    pushIf (gtb (len highVolatilityTasks) 0)
           (HighVolatilityTasks (len highVolatilityTasks)) risks in
  let overBudgetTasks :=
    filter (fun t => gtb (Task.totalSpent t) (Task.plannedBudget t * 1.1)) projectTasks in
  let risks :=
    pushIf (gtb (len overBudgetTasks) 0)
           (OverBudgetTasks (len overBudgetTasks)) risks in
  firstn 5 risks.

(** [ragCounts[r]] for the tasks of a project. *)
Definition ragCounts (projectTasks : list Task.t) (r : RAG) : Q :=
  len (filter (hasRAG r) projectTasks).

(** [Object.keys(ragCounts).reduce((a, b) => ragCounts[a] > ragCounts[b] ? a : b)]:
    the keys are Red, Amber, Green in this order and the first one seeds the
    reduction. *)
Definition mostCommonRAG (projectTasks : list Task.t) : RAG :=
  fold_left
    (fun a b => if gtb (ragCounts projectTasks a) (ragCounts projectTasks b) then a else b)
    [Amber; Green] Red.

Definition projectMetricsOf (entry : string * list Task.t) : ProjectMetrics.t :=
  let (projectName, projectTasks) := entry in
  let completedPct := (len (filter isCompleted projectTasks) / len projectTasks) * 100 in
  let criticalPathTasksPct :=
    (len (filter Task.criticalPathRisk projectTasks) / len projectTasks) * 100 in
  let ragStatus := mostCommonRAG projectTasks in
  let metrics :=
    {| ProjectMetrics.projectName := projectName;
       ProjectMetrics.totalTasks := len projectTasks;
       ProjectMetrics.completedPct := completedPct;
       ProjectMetrics.forecastAccuracy := calculateForecastAccuracy projectTasks None;
       ProjectMetrics.avgDurationVariance := calculateDurationVariance projectTasks None;
       ProjectMetrics.genericResourcePct :=
         calculateGenericResourcePercentage projectTasks None;
       ProjectMetrics.criticalPathTasksPct := criticalPathTasksPct;
       ProjectMetrics.ragStatus := ragStatus;
       ProjectMetrics.predictedRAG := Green;
       ProjectMetrics.topRisks := [] |} in
  let metrics := ProjectMetrics.set_predictedRAG metrics (predictRAGStatus metrics) in
  let metrics :=
    ProjectMetrics.set_topRisks metrics (identifyProjectRisks projectTasks metrics) in
  metrics.

Definition calculateProjectMetrics (tasks : list Task.t) : Result (list ProjectMetrics.t) :=
  if (length tasks =? 0)%nat then Ok []
  else
    bind (tasksByProject tasks) (fun tasksByProject =>
      Ok (map projectMetricsOf (entries tasksByProject))).

Definition calculatePortfolioMetrics (tasks : list Task.t) : Result PortfolioMetrics.t :=
  if (length tasks =? 0)%nat then
    Ok {| PortfolioMetrics.totalProjects := 0;
          PortfolioMetrics.totalTasks := 0;
          PortfolioMetrics.avgForecastAccuracy := 0;
          PortfolioMetrics.genericResourcePct := 0;
          PortfolioMetrics.criticalPathTasksPct := 0;
          PortfolioMetrics.ragDistribution :=
            {| RagDistribution.Red := 0; RagDistribution.Amber := 0;
               RagDistribution.Green := 0 |};
          PortfolioMetrics.managerMetrics := [] |}
  else
    let uniqueProjects := uniq (map Task.projectName tasks) in
    let ragDistribution :=
      {| RagDistribution.Red := len (filter (hasRAG Red) tasks);
         RagDistribution.Amber := len (filter (hasRAG Amber) tasks);
         RagDistribution.Green := len (filter (hasRAG Green) tasks) |} in
    bind (calculateManagerMetrics tasks) (fun managerMetrics =>
      Ok {| PortfolioMetrics.totalProjects := len uniqueProjects;
            PortfolioMetrics.totalTasks := len tasks;
            PortfolioMetrics.avgForecastAccuracy := calculateForecastAccuracy tasks None;
            PortfolioMetrics.genericResourcePct :=
              calculateGenericResourcePercentage tasks None;
            PortfolioMetrics.criticalPathTasksPct :=
              (len (filter Task.criticalPathRisk tasks) / len tasks) * 100;
            PortfolioMetrics.ragDistribution := ragDistribution;
            PortfolioMetrics.managerMetrics := managerMetrics |}).

(** [severityOrder[s]]. *)
Definition severityOrder (s : Severity) : Q :=
  match s with
  | high => 3
  | medium => 2
  | low => 1
  end.

Definition bySeverityDescending (a b : BehaviouralPattern.t) : Q :=
  severityOrder (BehaviouralPattern.severity b) - severityOrder (BehaviouralPattern.severity a).

Definition isOptimist (m : ManagerMetrics.t) : bool :=
  gtb (ManagerMetrics.avgDurationVariance m) 15 && ltb (ManagerMetrics.forecastAccuracy m) 60.

Definition isGenericAbuser (m : ManagerMetrics.t) : bool :=
  gtb (ManagerMetrics.genericResourcePct m) 70.

Definition isVolatile (t : Task.t) : bool := gtb (Task.criticalPathVolatility t) 5.

Definition isHoarder (tasks : list Task.t) (m : ManagerMetrics.t) : bool :=
  let managerTasks := filter (managedBy (ManagerMetrics.manager m)) tasks in
  let avgUtil := calculateResourceUtilisation managerTasks None in
  ltb avgUtil 60 && gtb (ManagerMetrics.totalTasks m) 5.

(** [arr[0].field], read where [arr] is known to be non-empty. *)
Definition first {A : Type} (field : A -> Q) (arr : list A) : Q :=
  match arr with
  | x :: _ => field x
  | [] => 0
  end.

(** The [patterns] array of [detectBehaviouralPatterns] after the four rules
    have run, before it is sorted. *)
Definition patternsFound
  (tasks : list Task.t) (managerMetrics : list ManagerMetrics.t)
  : list BehaviouralPattern.t :=
  let patterns := [] in
  let optimists := filter isOptimist managerMetrics in
  let patterns :=
    if gtb (len optimists) 0 then
      patterns ++
      [ {| BehaviouralPattern.patternType := chronic_optimism;
           BehaviouralPattern.severity :=
             if gtb (len optimists) (len managerMetrics * 0.5) then high else medium;
           BehaviouralPattern.description :=
             UnderestimateDuration (len optimists)
                                   (first ManagerMetrics.avgDurationVariance optimists);
           BehaviouralPattern.affectedManagers := map ManagerMetrics.manager optimists;
           BehaviouralPattern.recommendation :=
             "Implement historical data analysis and add buffer time based on past performance. Consider planning poker sessions with the team." |} ]
    else patterns in
  let genericAbusers := filter isGenericAbuser managerMetrics in
  let patterns :=
    if gtb (len genericAbusers) 0 then
      patterns ++
      [ {| BehaviouralPattern.patternType := generic_resource_overuse;
           BehaviouralPattern.severity :=
             if gtb (len genericAbusers) (len managerMetrics * 0.3) then high else medium;
           BehaviouralPattern.description :=
             UseGenericResources (len genericAbusers)
                                 (first ManagerMetrics.genericResourcePct genericAbusers);
           BehaviouralPattern.affectedManagers := map ManagerMetrics.manager genericAbusers;
           BehaviouralPattern.recommendation :=
             "Require named resource assignments 4+ weeks before task start. Implement resource booking system with advance planning incentives." |} ]
    else patterns in
  let highVolatility := len (filter isVolatile tasks) in
  let patterns :=
    if gtb highVolatility (len tasks * 0.2) then
      let affectedManagers :=
        uniq (map Task.functionalManager (filter isVolatile tasks)) in
      patterns ++
      [ {| BehaviouralPattern.patternType := critical_path_instability;
           BehaviouralPattern.severity :=
             if gtb highVolatility (len tasks * 0.3) then high else medium;
           BehaviouralPattern.description :=
             HighVolatility highVolatility ((highVolatility / len tasks) * 100);
           BehaviouralPattern.affectedManagers := affectedManagers;
           BehaviouralPattern.recommendation :=
             "Stabilize critical path through dependency review, buffer management, and reducing multitasking on critical tasks." |} ]
    else patterns in
  let hoarders := filter (isHoarder tasks) managerMetrics in
  let patterns :=
    if gtb (len hoarders) 0 then
      patterns ++
      [ {| BehaviouralPattern.patternType := resource_hoarding;
           BehaviouralPattern.severity :=
             if gtb (len hoarders) (len managerMetrics * 0.3) then high else low;
           BehaviouralPattern.description := LowUtilisation (len hoarders);
           BehaviouralPattern.affectedManagers := map ManagerMetrics.manager hoarders;
           BehaviouralPattern.recommendation :=
             "Review resource allocation and capacity. Consider resource sharing across teams and reduce resource hoarding." |} ]
    else patterns in
  patterns.

Definition detectBehaviouralPatterns
  (tasks : list Task.t) (managerMetrics : list ManagerMetrics.t)
  : list BehaviouralPattern.t :=
  sort bySeverityDescending (patternsFound tasks managerMetrics).

(** ** Insights ([generateInsights]) *)

Inductive InsightType : Type := warning | success | info | danger.

(** The [description] of an insight: its template and the numbers
    interpolated in it.  [RedShare] keeps the two operands of the percentage
    the sentence prints. *)
Inductive InsightText : Type :=
| ForecastBelowThreshold (pct : Q)
| GenericShare (pct : Q)
| RedShare (red totalRAG : Q)
| ScoreIndicatesIssues (score : Q)
| TopPerformers (managers : Q).

(** [priority] ranges over the same three literals as a pattern's severity. *)
Module Insight.
Record t : Type := mk {
  id : string;
  type : InsightType;
  priority : Severity;
  title : string;
  description : InsightText;
  recommendation : string;
  affectedEntity : string
}.
End Insight.

(** [priorityOrder[p]]. *)
Definition priorityOrder (p : Severity) : Q :=
  match p with
  | high => 3
  | medium => 2
  | low => 1
  end.

Definition byPriorityDescending (a b : Insight.t) : Q :=
  priorityOrder (Insight.priority b) - priorityOrder (Insight.priority a).

(** [(red / totalRAG) * 100 > 30].  The division is not guarded: by zero it
    gives Infinity for a positive [red], and NaN or -Infinity otherwise, and
    of these only Infinity is above 30. *)
Definition redShareAbove30 (red totalRAG : Q) : bool :=
  if Qeq_bool totalRAG 0 then gtb red 0
  else gtb ((red / totalRAG) * 100) 30.

Definition isPoorPerformer (m : ManagerMetrics.t) : bool :=
  ltb (ManagerMetrics.performanceScore m) 40.

Definition isTopPerformer (m : ManagerMetrics.t) : bool :=
  gtb (ManagerMetrics.performanceScore m) 80.

(** The insight pushed for one poor performer. *)
Definition lowScoreInsight (manager : ManagerMetrics.t) : Insight.t :=
  {| Insight.id := "manager-" ++ ManagerMetrics.manager manager ++ "-low-score";
     Insight.type := warning;
     Insight.priority := medium;
     Insight.title := ManagerMetrics.manager manager ++ ": Low Performance Score";
     Insight.description := ScoreIndicatesIssues (ManagerMetrics.performanceScore manager);
     Insight.recommendation :=
       "Provide coaching on realistic planning, resource allocation, and dependency management.";
     Insight.affectedEntity := ManagerMetrics.manager manager |}.

(** The [insights] array of [generateInsights] before it is sorted. *)
Definition insightsFound (portfolioMetrics : PortfolioMetrics.t) : list Insight.t :=
  let insights := [] in
  let insights :=
    if ltb (PortfolioMetrics.avgForecastAccuracy portfolioMetrics) 60 then
      insights ++
      [ {| Insight.id := "portfolio-forecast-low";
           Insight.type := danger;
           Insight.priority := high;
           Insight.title := "Low Portfolio Forecast Accuracy";
           Insight.description :=
             ForecastBelowThreshold (PortfolioMetrics.avgForecastAccuracy portfolioMetrics);
           Insight.recommendation :=
             "Implement mandatory historical analysis before planning. Train managers on realistic estimation techniques.";
           Insight.affectedEntity := "Portfolio" |} ]
    else insights in
  let insights :=
    if gtb (PortfolioMetrics.genericResourcePct portfolioMetrics) 50 then
      insights ++
      [ {| Insight.id := "portfolio-generic-high";
           Insight.type := warning;
           Insight.priority := high;
           Insight.title := "High Generic Resource Usage";
           Insight.description :=
             GenericShare (PortfolioMetrics.genericResourcePct portfolioMetrics);
           Insight.recommendation :=
             "Enforce named resource assignments at least 4 weeks before task start dates.";
           Insight.affectedEntity := "Portfolio" |} ]
    else insights in
  let ragDistribution := PortfolioMetrics.ragDistribution portfolioMetrics in
  let totalRAG :=
    RagDistribution.Red ragDistribution + RagDistribution.Amber ragDistribution
    + RagDistribution.Green ragDistribution in
  let insights :=
    if redShareAbove30 (RagDistribution.Red ragDistribution) totalRAG then
      insights ++
      [ {| Insight.id := "portfolio-rag-red";
           Insight.type := danger;
           Insight.priority := high;
           Insight.title := "High Number of Red RAG Projects";
           Insight.description := RedShare (RagDistribution.Red ragDistribution) totalRAG;
           Insight.recommendation :=
             "Immediate intervention required. Review project plans, resources, and dependencies.";
           Insight.affectedEntity := "Portfolio" |} ]
    else insights in
  let poorPerformers :=
    filter isPoorPerformer (PortfolioMetrics.managerMetrics portfolioMetrics) in
  let insights :=
    if gtb (len poorPerformers) 0 then insights ++ map lowScoreInsight poorPerformers
    else insights in
  let topPerformers :=
    filter isTopPerformer (PortfolioMetrics.managerMetrics portfolioMetrics) in
  let insights :=
    if gtb (len topPerformers) 0 then
      insights ++
      [ {| Insight.id := "portfolio-top-performers";
           Insight.type := success;
           Insight.priority := low;
           Insight.title := "Strong Performance from Top Managers";
           Insight.description := TopPerformers (len topPerformers);
           Insight.recommendation :=
             "Share best practices from these managers across the organization.";
           Insight.affectedEntity := "Portfolio" |} ]
    else insights in
  insights.

Definition generateInsights (_tasks : list Task.t) (portfolioMetrics : PortfolioMetrics.t)
  : list Insight.t :=
  sort byPriorityDescending (insightsFound portfolioMetrics).

(** ** Sample data *)

Module Sample.

(** A task with the given manager, project, status, end dates, RAG,
    utilisation and critical-path flag; the other fields are blank. *)
Definition task (manager project : string) (status : Status)
  (plannedEnd actualEnd : option Z) (rag : RAG) (utilisation : Q) (critical : bool)
  : Task.t :=
  Task.mk "" project PM "" "" "" manager 0 0 "" 0 0 status
          None None None None plannedEnd actualEnd
          false utilisation rag 0 0 critical 0 0 0 0.

End Sample.

(** ** Reference predicates used in the statements *)

(** The tasks [calculateForecastAccuracy] and [calculateDurationVariance]
    look at: Completed, and owned by [manager] when one is named. *)
Definition inScope (manager : option string) (t : Task.t) : bool :=
  isCompleted t
  && match manager with
     | Some m => if (m =? "")%string then true else (Task.functionalManager t =? m)%string
     | None => true
     end.

Definition hasBothEndDates (t : Task.t) : bool :=
  match Task.plannedEnd t, Task.actualEnd t with
  | Some _, Some _ => true
  | _, _ => false
  end.

(** Both end dates are present and the actual end is not after the planned
    end. *)
Definition endedOnTime (t : Task.t) : bool :=
  match Task.plannedEnd t, Task.actualEnd t with
  | Some p, Some a => (a <=? p)%Z
  | _, _ => false
  end.

(** A Red, respectively Amber, threshold of the RAG predictor is breached. *)
Definition breachesRed (m : ProjectMetrics.t) : Prop :=
  ProjectMetrics.forecastAccuracy m < 50
  \/ 80 < ProjectMetrics.genericResourcePct m
  \/ 25 < ProjectMetrics.avgDurationVariance m
  \/ 40 < ProjectMetrics.criticalPathTasksPct m.

Definition breachesAmber (m : ProjectMetrics.t) : Prop :=
  ProjectMetrics.forecastAccuracy m < 70
  \/ 50 < ProjectMetrics.genericResourcePct m
  \/ 15 < ProjectMetrics.avgDurationVariance m
  \/ 30 < ProjectMetrics.criticalPathTasksPct m.

(** The mean utilisation of the tasks owned by [manager] that report one
    (utilisation above 0); 0 when none does. *)
Definition reportsFor (manager : string) (t : Task.t) : bool :=
  (Task.functionalManager t =? manager)%string && gtb (Task.resourceUtilisation t) 0.

Definition meanUtilisation (tasks : list Task.t) (manager : string) : Q :=
  let reported := filter (reportsFor manager) tasks in
  match reported with
  | [] => 0
  | _ => sum_by Task.resourceUtilisation reported / len reported
  end.



(** [a] comes first in the order in which patterns are listed. *)
Definition notLessSevere (a b : BehaviouralPattern.t) : Prop :=
  severityOrder (BehaviouralPattern.severity b) <= severityOrder (BehaviouralPattern.severity a).

(** No grouping key of [tasks] is a member of [Object.prototype]. *)
Definition plainKeys (key : Task.t -> string) (tasks : list Task.t) : Prop :=
  forall t, In t tasks -> inherited (key t) = false.

(** The tasks of [tasks] that fall in the group named [k]. *)
Definition groupOf (key : Task.t -> string) (k : string) (tasks : list Task.t)
  : list Task.t :=
  filter (fun t => (key t =? k)%string) tasks.

(** [o] holds exactly the non-empty groups of [done], one own property per
    group, and none under an inherited name. *)
Definition Grouped (key : Task.t -> string) (done : list Task.t)
  (o : Dict (list Task.t)) : Prop :=
  NoDup (map fst o)
  /\ (forall k, own o k = match groupOf key k done with [] => None | g => Some g end)
  /\ (forall k, In k (map fst o) -> inherited k = false).

(** Sum of a number over a list. *)
Definition total {A : Type} (f : A -> Q) (l : list A) : Q :=
  fold_right (fun x s => f x + s) 0 l.

(** ** Sample inputs *)

Module Inputs.

(** Two Completed tasks: one on time, one with no actual end date. *)
Definition onTimeAndUndated : list Task.t :=
  [ Sample.task "Ana" "Apollo" Completed (Some 10%Z) (Some 5%Z) Green 80 false;
    Sample.task "Ana" "Apollo" Completed (Some 10%Z) None Green 80 false ].

(** One Red and one Amber task of the same project. *)
Definition redAndAmber : list Task.t :=
  [ Sample.task "Ana" "Apollo" InProgress None None Red 80 false;
    Sample.task "Ben" "Apollo" InProgress None None Amber 80 false ].

(** Two tasks off the critical path. *)
Definition offCriticalPath : list Task.t :=
  [ Sample.task "Ana" "Apollo" InProgress None None Red 80 false;
    Sample.task "Ben" "Gemini" NotStarted None None Green 0 false ].

(** A single task whose manager is called "constructor". *)
Definition managerNamedConstructor : list Task.t :=
  [ Sample.task "constructor" "Apollo" InProgress None None Green 80 false ].

(** Projects "" and "Unnamed Project", and a manager called "toString". *)
Definition managerNamedToString : list Task.t :=
  [ Sample.task "Ana" "" InProgress None None Green 80 false;
    Sample.task "toString" "Unnamed Project" InProgress None None Red 80 false ].

(** Six tasks of one manager, each at 40% utilisation. *)
Definition sixAtForty : list Task.t :=
  repeat (Sample.task "Ana" "Apollo" InProgress None None Green 40 false) 6.

(** Six tasks with no manager, each at 90% utilisation. *)
Definition sixUnassignedAtNinety : list Task.t :=
  repeat (Sample.task "" "Apollo" InProgress None None Green 90 false) 6.

(** Tasks of three projects, one with an empty name and one literally
    called "Unnamed Project". *)
Definition unnamedTwice : list Task.t :=
  [ Sample.task "Ana" "" InProgress None None Green 80 false;
    Sample.task "Ben" "Unnamed Project" InProgress None None Red 80 false;
    Sample.task "Ana" "Apollo" Completed None None Green 80 true ].

End Inputs.

(** ** Further reference predicates *)

(** A number between 0 and 100. *)
Definition isPercentage (x : Q) : Prop := 0 <= x /\ x <= 100.


(** The tasks the generic-resource and utilisation metrics look at: all of
    them, or those owned by [manager] when one is named. *)
Definition ownedBy (manager : option string) (t : Task.t) : bool :=
  match manager with
  | Some m => if (m =? "")%string then true else (Task.functionalManager t =? m)%string
  | None => true
  end.



(** How alarming a RAG value is. *)
Definition ragRisk (r : RAG) : nat :=
  match r with
  | Green => 0
  | Amber => 1
  | Red => 2
  end.


(** The kinds of risk, in the order in which they are examined. *)
Inductive RiskKind : Type :=
| lowForecastAccuracy
| highGenericResourceUsage
| largeDurationVariance
| oversizedCriticalPath
| highVolatilityTasks
| overBudgetTasks.

Definition riskKind (r : Risk) : RiskKind :=
  match r with
  | LowForecastAccuracy _ => lowForecastAccuracy
  | HighGenericResourceUsage _ => highGenericResourceUsage
  | LargeDurationVariance _ => largeDurationVariance
  | OversizedCriticalPath _ => oversizedCriticalPath
  | HighVolatilityTasks _ => highVolatilityTasks
  | OverBudgetTasks _ => overBudgetTasks
  end.

Definition riskRank (k : RiskKind) : nat :=
  match k with
  | lowForecastAccuracy => 0
  | highGenericResourceUsage => 1
  | largeDurationVariance => 2
  | oversizedCriticalPath => 3
  | highVolatilityTasks => 4
  | overBudgetTasks => 5
  end.

(** A task that spent more than 110% of its planned budget. *)
Definition overBudget (t : Task.t) : Prop :=
  Task.plannedBudget t * 1.1 < Task.totalSpent t.

(** The rules of the detector on one manager, and on one task. *)
Definition optimistic (m : ManagerMetrics.t) : Prop :=
  15 < ManagerMetrics.avgDurationVariance m /\ ManagerMetrics.forecastAccuracy m < 60.

Definition overusesGeneric (m : ManagerMetrics.t) : Prop :=
  70 < ManagerMetrics.genericResourcePct m.

Definition volatile (t : Task.t) : Prop := 5 < Task.criticalPathVolatility t.

(** [a] comes first in the order in which insights are listed. *)
Definition notLowerPriority (a b : Insight.t) : Prop :=
  priorityOrder (Insight.priority b) <= priorityOrder (Insight.priority a).


(** ** Further sample inputs *)

Module Cases.

(** Three managers, one of them unnamed, over two projects. *)
Definition threeManagers : list Task.t :=
  [ Sample.task "Ana" "Apollo" Completed (Some 10%Z) (Some 12%Z) Red 50 true;
    Sample.task "" "Apollo" Completed (Some 10%Z) (Some 9%Z) Green 70 false;
    Sample.task "Ben" "Gemini" InProgress None None Amber 0 false;
    Sample.task "Ana" "Gemini" Completed (Some 20%Z) (Some 20%Z) Green 90 false ].

End Cases.

(** ** Numbers, lengths and comparisons *)

Section Numbers.

Lemma leb_spec (x y : Q) : leb x y = true <-> x <= y.
Proof. unfold leb. apply Qle_bool_iff. Qed.

Lemma ltb_spec (x y : Q) : ltb x y = true <-> x < y.
Proof.
  unfold ltb. rewrite negb_true_iff. split; intro H.
  - apply Qnot_le_lt. intro Hle. apply Qle_bool_iff in Hle. congruence.
  - destruct (Qle_bool y x) eqn:E; [| reflexivity].
    apply Qle_bool_iff in E. exfalso. apply (Qlt_not_le _ _ H E).
Qed.

Lemma ltb_false (x y : Q) : ltb x y = false <-> y <= x.
Proof.
  unfold ltb. rewrite negb_false_iff. apply Qle_bool_iff.
Qed.

Lemma gtb_spec (x y : Q) : gtb x y = true <-> y < x.
Proof. unfold gtb. apply ltb_spec. Qed.

Lemma gtb_false (x y : Q) : gtb x y = false <-> x <= y.
Proof. unfold gtb. apply ltb_false. Qed.

Lemma len_nil {A : Type} : len (@nil A) = 0.
Proof. reflexivity. Qed.

Lemma len_pos {A : Type} (l : list A) : l <> [] -> 0 < len l.
Proof.
  intro H. unfold len. change 0 with (inject_Z 0). rewrite <- Zlt_Qlt.
  destruct l; [congruence | simpl; lia].
Qed.

Lemma len_gtb_0 {A : Type} (l : list A) :
  gtb (len l) 0 = negb (length l =? 0)%nat.
Proof.
  destruct l as [| x r]; [reflexivity |].
  simpl. apply gtb_spec. apply len_pos. discriminate.
Qed.

Lemma Math_round_le (x y : Q) : x <= y -> Math_round x <= Math_round y.
Proof.
  intro H. unfold Math_round. rewrite <- Zle_Qle.
  apply Qfloor_resp_le. lra.
Qed.

End Numbers.

(** ** Forecast accuracy *)

Section ForecastAccuracy.

Lemma completed_scope (tasks : list Task.t) (manager : option string) :
  match given manager with
  | Some m => filter (fun t => managedBy m t && isCompleted t) tasks
  | None => filter isCompleted tasks
  end = filter (inScope manager) tasks.
Proof.
  unfold given, inScope, truthy, managedBy.
  destruct manager as [m |]; [destruct (m =? "")%string |]; simpl;
    apply filter_ext; intro t.
  - symmetry. apply andb_true_r.
  - apply andb_comm.
  - symmetry. apply andb_true_r.
Qed.

Lemma filter_drops {A : Type} (f : A -> bool) (x : A) (l : list A) :
  In x l -> f x = false -> (length (filter f l) < length l)%nat.
Proof.
  induction l as [| y r IH]; simpl; [tauto |].
  intros [-> | Hin] Hx.
  - rewrite Hx. pose proof (filter_length_le f r). lia.
  - specialize (IH Hin Hx). destruct (f y); simpl; lia.
Qed.

Lemma onOrBefore_endedOnTime (t : Task.t) :
  onOrBefore (Task.plannedEnd t) (Task.actualEnd t) = endedOnTime t.
Proof. reflexivity. Qed.

Lemma calculateForecastAccuracy_unfold (tasks : list Task.t) (manager : option string) :
  calculateForecastAccuracy tasks manager =
  let scope := filter (inScope manager) tasks in
  if (length scope =? 0)%nat then 0
  else len (filter endedOnTime scope) / len scope * 100.
Proof.
  unfold calculateForecastAccuracy. rewrite completed_scope. reflexivity.
Qed.

(** C1, as the code has it: forecast accuracy is the number of Completed
    tasks (of the manager, when one is named) that have both end dates and
    ended no later than planned, divided by the number of ALL Completed
    tasks in scope, times 100.  A Completed task that misses a date stays
    in the denominator and is never on time; with no Completed task in
    scope the result is 0. *)
Theorem forecast_accuracy_over_completed (tasks : list Task.t) (manager : option string) :
  let scope := filter (inScope manager) tasks in
  let onTime := filter endedOnTime scope in
  (scope = [] -> calculateForecastAccuracy tasks manager = 0)
  /\ (scope <> [] ->
      calculateForecastAccuracy tasks manager == len onTime / len scope * 100)
  /\ (forall t, In t scope -> hasBothEndDates t = false ->
      ~ In t onTime /\ (length onTime < length scope)%nat).
Proof.
  intros scope onTime. rewrite calculateForecastAccuracy_unfold. fold scope.
  cbv zeta. fold onTime. repeat split.
  - intros ->. reflexivity.
  - intro Hne. destruct scope; [congruence | reflexivity].
  - unfold onTime. rewrite filter_In. intros [_ Hon].
    unfold endedOnTime, hasBothEndDates in *.
    destruct (Task.plannedEnd t), (Task.actualEnd t); discriminate.
  - unfold onTime. apply filter_drops with (x := t); [assumption |].
    unfold endedOnTime, hasBothEndDates in *.
    destruct (Task.plannedEnd t), (Task.actualEnd t); try discriminate; reflexivity.
Qed.

(** C1 as stated fails: with one Completed task on time and one Completed
    task without an actual end date, dividing by the dated tasks only would
    give 100, and the code returns 50. *)
Lemma forecast_accuracy_undated_task_counts :
  let tasks := Inputs.onTimeAndUndated in
  let dated := filter hasBothEndDates (filter (inScope None) tasks) in
  len (filter endedOnTime dated) / len dated * 100 == 100
  /\ calculateForecastAccuracy tasks None == 50
  /\ ~ calculateForecastAccuracy tasks None
       == len (filter endedOnTime dated) / len dated * 100.
Proof.
  cbv zeta. repeat split; try reflexivity.
  vm_compute. discriminate.
Qed.

(** The scenario of the design document: ten Completed tasks on time give
    100, and 70 once three of them end late. *)
Lemma forecast_accuracy_scenario :
  let onTime := Sample.task "Ana" "Apollo" Completed (Some 10%Z) (Some 10%Z) Green 80 false in
  let late := Sample.task "Ana" "Apollo" Completed (Some 10%Z) (Some 11%Z) Green 80 false in
  calculateForecastAccuracy (repeat onTime 10) None == 100
  /\ calculateForecastAccuracy (repeat late 3 ++ repeat onTime 7) None == 70.
Proof. split; reflexivity. Qed.

End ForecastAccuracy.

(** ** Critical-path health *)

Section CriticalPathHealth.

Lemma filter_none {A : Type} (f : A -> bool) (l : list A) :
  (forall x, In x l -> f x = false) -> filter f l = [].
Proof.
  induction l as [| y r IH]; simpl; intro H; [reflexivity |].
  rewrite (H y (or_introl eq_refl)). apply IH. intros x Hx. apply H. now right.
Qed.

(** C2, as the code has it: when no task carries the critical-path flag,
    the health is 100 for a non-empty list, whatever the other fields, and
    0 for the empty list (the emptiness test comes first). *)
Theorem critical_path_health_without_flags (tasks : list Task.t) :
  (forall t, In t tasks -> Task.criticalPathRisk t = false) ->
  calculateCriticalPathHealth tasks = match tasks with [] => 0 | _ :: _ => 100 end.
Proof.
  intro H. unfold calculateCriticalPathHealth.
  destruct tasks as [| t r]; [reflexivity |].
  rewrite (filter_none _ _ H). reflexivity.
Qed.

Lemma critical_path_health_without_flags_example :
  (forall t, In t Inputs.offCriticalPath -> Task.criticalPathRisk t = false)
  /\ calculateCriticalPathHealth Inputs.offCriticalPath = 100.
Proof.
  assert (H : forall t, In t Inputs.offCriticalPath -> Task.criticalPathRisk t = false).
  { intros t [<- | [<- | []]]; reflexivity. }
  split; [exact H |].
  exact (critical_path_health_without_flags Inputs.offCriticalPath H).
Defined.

(** C2 as stated fails on the empty list: no task is flagged, and the
    health is 0, not 100. *)
Lemma critical_path_health_of_no_tasks :
  (forall t, In t (@nil Task.t) -> Task.criticalPathRisk t = false)
  /\ calculateCriticalPathHealth [] = 0
  /\ ~ calculateCriticalPathHealth [] == 100.
Proof.
  repeat split.
  - intros t [].
  - vm_compute. discriminate.
Qed.

End CriticalPathHealth.

(** ** The RAG predictor *)

Section Predictor.

Lemma red_rule (m : ProjectMetrics.t) :
  ltb (ProjectMetrics.forecastAccuracy m) 50
  || gtb (ProjectMetrics.genericResourcePct m) 80
  || gtb (ProjectMetrics.avgDurationVariance m) 25
  || gtb (ProjectMetrics.criticalPathTasksPct m) 40 = true
  <-> breachesRed m.
Proof.
  unfold breachesRed. rewrite !orb_true_iff, ltb_spec, !gtb_spec. tauto.
Qed.

Lemma amber_rule (m : ProjectMetrics.t) :
  ltb (ProjectMetrics.forecastAccuracy m) 70
  || gtb (ProjectMetrics.genericResourcePct m) 50
  || gtb (ProjectMetrics.avgDurationVariance m) 15
  || gtb (ProjectMetrics.criticalPathTasksPct m) 30 = true
  <-> breachesAmber m.
Proof.
  unfold breachesAmber. rewrite !orb_true_iff, ltb_spec, !gtb_spec. tauto.
Qed.

(** C3: [predictRAGStatus] answers Red exactly when a Red threshold is
    breached, Amber exactly when no Red threshold but an Amber threshold is
    breached, and Green exactly when neither is; the three cases exclude one
    another and cover every input.  Metrics with forecastAccuracy 45,
    genericResourcePct 30, avgDurationVariance 10 and criticalPathTasksPct
    10 are Red, whatever the other fields. *)
Theorem predictRAGStatus_rules (m : ProjectMetrics.t) :
  (predictRAGStatus m = Red <-> breachesRed m)
  /\ (predictRAGStatus m = Amber <-> ~ breachesRed m /\ breachesAmber m)
  /\ (predictRAGStatus m = Green <-> ~ breachesRed m /\ ~ breachesAmber m)
  /\ (forall name total completed current predicted risks,
        predictRAGStatus
          (ProjectMetrics.mk name total completed 45 10 30 10 current predicted risks)
        = Red).
Proof.
  pose proof (red_rule m) as HR. pose proof (amber_rule m) as HA.
  unfold predictRAGStatus.
  destruct (ltb (ProjectMetrics.forecastAccuracy m) 50
            || gtb (ProjectMetrics.genericResourcePct m) 80
            || gtb (ProjectMetrics.avgDurationVariance m) 25
            || gtb (ProjectMetrics.criticalPathTasksPct m) 40) eqn:ER;
    [| destruct (ltb (ProjectMetrics.forecastAccuracy m) 70
                 || gtb (ProjectMetrics.genericResourcePct m) 50
                 || gtb (ProjectMetrics.avgDurationVariance m) 15
                 || gtb (ProjectMetrics.criticalPathTasksPct m) 30) eqn:EA ].
  - assert (breachesRed m) by (apply HR; reflexivity).
    repeat split; try tauto; try discriminate; reflexivity.
  - assert (~ breachesRed m) by (intro B; apply HR in B; discriminate).
    assert (breachesAmber m) by (apply HA; reflexivity).
    repeat split; try tauto; try discriminate; reflexivity.
  - assert (~ breachesRed m) by (intro B; apply HR in B; discriminate).
    assert (~ breachesAmber m) by (intro B; apply HA in B; discriminate).
    repeat split; try tauto; try discriminate; reflexivity.
Qed.

End Predictor.

(** ** The portfolio roll-up of no tasks *)

(** C7: for the empty task list [calculatePortfolioMetrics] returns, without
    throwing, zero projects and tasks, zero percentages, a RAG distribution
    of zeros and no manager metrics. *)
Theorem portfolio_of_no_tasks :
  calculatePortfolioMetrics [] =
  Ok (PortfolioMetrics.mk 0 0 0 0 0 (RagDistribution.mk 0 0 0) []).
Proof. reflexivity. Qed.

(** ** The performance score *)

Section PerformanceScore.

Lemma varianceScore_antitone (dv1 dv2 : Q) :
  Qabs dv1 <= Qabs dv2 ->
  Math_max 0 (100 - Math_abs dv2) <= Math_max 0 (100 - Math_abs dv1).
Proof.
  intro H. unfold Math_max, Math_abs.
  apply Q.max_le_compat_l. lra.
Qed.

Lemma genericScore_antitone (gp1 gp2 : Q) :
  gp1 <= gp2 -> Math_max 0 (100 - gp2) <= Math_max 0 (100 - gp1).
Proof.
  intro H. unfold Math_max. apply Q.max_le_compat_l. lra.
Qed.

Lemma performanceScoreOf_le (fa1 fa2 cph1 cph2 rag1 rag2 dv1 dv2 gp1 gp2 : Q) :
  fa2 <= fa1 -> cph2 <= cph1 -> rag2 <= rag1 ->
  Qabs dv1 <= Qabs dv2 ->
  gp1 <= gp2 ->
  performanceScoreOf fa2 dv2 gp2 cph2 rag2 <= performanceScoreOf fa1 dv1 gp1 cph1 rag1.
Proof.
  intros Hfa Hcph Hrag Hdv Hgp. unfold performanceScoreOf. cbv zeta.
  apply Math_round_le.
  pose proof (varianceScore_antitone _ _ Hdv) as Hv.
  pose proof (genericScore_antitone _ _ Hgp) as Hg.
  unfold weights.forecastAccuracy, weights.durationVariance,
    weights.genericResource, weights.criticalPath, weights.ragStatus.
  set (v2 := Math_max 0 (100 - Math_abs dv2)) in *.
  set (v1 := Math_max 0 (100 - Math_abs dv1)) in *.
  set (g2 := Math_max 0 (100 - gp2)) in *.
  set (g1 := Math_max 0 (100 - gp1)) in *.
  lra.
Qed.


(** The same on task lists: of two non-empty groups that agree on forecast
    accuracy, critical-path health and RAG score, the one with the larger
    absolute duration variance and generic-resource percentage does not
    score higher. *)
Lemma calculatePerformanceScore_antitone (ts1 ts2 : list Task.t) :
  ts1 <> [] -> ts2 <> [] ->
  calculateForecastAccuracy ts1 None == calculateForecastAccuracy ts2 None ->
  calculateCriticalPathHealth ts1 == calculateCriticalPathHealth ts2 ->
  ragScoreOf ts1 == ragScoreOf ts2 ->
  Qabs (calculateDurationVariance ts1 None) <= Qabs (calculateDurationVariance ts2 None) ->
  calculateGenericResourcePercentage ts1 None
    <= calculateGenericResourcePercentage ts2 None ->
  calculatePerformanceScore ts2 <= calculatePerformanceScore ts1.
Proof.
  intros H1 H2 Hfa Hcph Hrag Hdv Hgp. unfold calculatePerformanceScore.
  destruct ts1 as [| a1 r1]; [congruence |].
  destruct ts2 as [| a2 r2]; [congruence |].
  cbn [length Nat.eqb].
  apply performanceScoreOf_le; try assumption; lra.
Qed.



End PerformanceScore.

(** ** Objects as dictionaries *)

Section Dictionaries.

Context {V : Type}.
Implicit Types (o : Dict V) (k : string) (v : V).

Lemma own_set_same o k v : own (set o k v) k = Some v.
Proof.
  induction o as [| [k' v'] r IH]; simpl.
  - now rewrite String.eqb_refl.
  - destruct (k' =? k)%string eqn:E; simpl; rewrite E; [reflexivity | exact IH].
Qed.

Lemma own_set_other o k k' v : k <> k' -> own (set o k v) k' = own o k'.
Proof.
  intro Hne. induction o as [| [k0 v0] r IH]; simpl.
  - apply String.eqb_neq in Hne. now rewrite Hne.
  - destruct (k0 =? k)%string eqn:E; simpl.
    + apply String.eqb_eq in E. subst k0.
      apply String.eqb_neq in Hne. now rewrite Hne.
    + destruct (k0 =? k')%string; [reflexivity | exact IH].
Qed.

Lemma own_none o k : own o k = None <-> ~ In k (map fst o).
Proof.
  induction o as [| [k' v'] r IH]; simpl; [tauto |].
  destruct (k' =? k)%string eqn:E.
  - apply String.eqb_eq in E. split; [discriminate | intro H; exfalso; auto].
  - apply String.eqb_neq in E. rewrite IH. tauto.
Qed.

Lemma own_in o k v : NoDup (map fst o) -> (own o k = Some v <-> In (k, v) o).
Proof.
  induction o as [| [k' v'] r IH]; simpl; intro Hnd.
  - split; [discriminate | tauto].
  - inversion Hnd as [| ? ? Hnotin Hnd']; subst.
    destruct (k' =? k)%string eqn:E.
    + apply String.eqb_eq in E. subst k'. split.
      * intros [= ->]. now left.
      * intros [[= ->] | Hin]; [reflexivity |].
        exfalso. apply Hnotin. apply (in_map fst) in Hin. exact Hin.
    + apply String.eqb_neq in E. rewrite (IH Hnd'). split; [tauto |].
      intros [[= -> _] | Hin]; [congruence | exact Hin].
Qed.

Lemma keys_set o k v :
  map fst (set o k v) =
  match own o k with
  | Some _ => map fst o
  | None => map fst o ++ [k]
  end.
Proof.
  induction o as [| [k' v'] r IH]; simpl; [reflexivity |].
  destruct (k' =? k)%string eqn:E; simpl; [reflexivity |].
  rewrite IH. destruct (own r k); reflexivity.
Qed.

Lemma index_insert_permutation (e : string * V) (l : list (string * V)) :
  Permutation (index_insert e l) (e :: l).
Proof.
  induction l as [| e' r IH]; simpl; [reflexivity |].
  destruct (index_of (fst e) <=? index_of (fst e'))%N; [reflexivity |].
  rewrite IH. apply perm_swap.
Qed.

Lemma filter_split_permutation {A : Type} (f : A -> bool) (l : list A) :
  Permutation (filter f l ++ filter (fun x => negb (f x)) l) l.
Proof.
  induction l as [| x r IH]; simpl; [reflexivity |].
  destruct (f x); simpl.
  - now apply perm_skip.
  - rewrite <- Permutation_middle. now apply perm_skip.
Qed.

Lemma entries_permutation o : Permutation (entries o) o.
Proof.
  unfold entries.
  rewrite <- (filter_split_permutation (fun e => is_index (fst e)) o) at 3.
  apply Permutation_app_tail.
  induction (filter (fun e => is_index (fst e)) o) as [| e r IH]; simpl;
    [reflexivity |].
  rewrite index_insert_permutation. now apply perm_skip.
Qed.

End Dictionaries.

Section Sorting.

Context {A : Type}.
Variable cmp : A -> A -> Q.

Lemma sort_insert_permutation (x : A) (l : list A) :
  Permutation (sort_insert cmp x l) (x :: l).
Proof.
  induction l as [| y r IH]; simpl; [reflexivity |].
  destruct (leb (cmp x y) 0); [reflexivity |].
  rewrite IH. apply perm_swap.
Qed.

Lemma sort_permutation (l : list A) : Permutation (sort cmp l) l.
Proof.
  induction l as [| x r IH]; simpl; [reflexivity |].
  rewrite sort_insert_permutation. now apply perm_skip.
Qed.

Lemma sort_in (x : A) (l : list A) : In x (sort cmp l) <-> In x l.
Proof.
  split; apply Permutation_in;
    [apply sort_permutation | symmetry; apply sort_permutation].
Qed.

(** When the comparator is the difference of a rank, the result lists the
    ranks in non-increasing order. *)
Variable rank : A -> Q.
Hypothesis cmp_rank : forall a b, cmp a b = rank b - rank a.

Let before (a b : A) : Prop := rank b <= rank a.

Lemma sort_insert_sorted (x : A) (l : list A) :
  StronglySorted before l -> StronglySorted before (sort_insert cmp x l).
Proof.
  induction l as [| y r IH]; simpl; intro Hs.
  - constructor; constructor.
  - inversion Hs as [| ? ? Hr Hall]; subst.
    destruct (leb (cmp x y) 0) eqn:E.
    + apply leb_spec in E. rewrite cmp_rank in E.
      constructor; [exact Hs |].
      constructor; [unfold before; lra |].
      eapply Forall_impl; [| exact Hall].
      unfold before. intros z Hz. lra.
    + assert (Hxy : rank x <= rank y).
      { destruct (Qlt_le_dec (rank y) (rank x)) as [Hlt | Hle]; [| exact Hle].
        assert (leb (cmp x y) 0 = true); [| congruence].
        apply leb_spec. rewrite cmp_rank. lra. }
      constructor; [apply IH; exact Hr |].
      rewrite sort_insert_permutation.
      constructor; [exact Hxy | exact Hall].
Qed.

Lemma sort_sorted (l : list A) : StronglySorted before (sort cmp l).
Proof.
  induction l as [| x r IH]; simpl; [constructor |].
  now apply sort_insert_sorted.
Qed.

End Sorting.

(** ** Grouping tasks by a key *)

Section Grouping.

Variable key : Task.t -> string.

Lemma groupOf_app (k : string) (l l' : list Task.t) :
  groupOf key k (l ++ l') = groupOf key k l ++ groupOf key k l'.
Proof. apply filter_app. Qed.

Lemma groupOf_in (k : string) (l : list Task.t) (t : Task.t) :
  In t (groupOf key k l) <-> In t l /\ key t = k.
Proof.
  unfold groupOf. rewrite filter_In, String.eqb_eq. tauto.
Qed.

Lemma groupOf_nonempty (k : string) (l : list Task.t) :
  groupOf key k l <> [] <-> exists t, In t l /\ key t = k.
Proof.
  split.
  - destruct (groupOf key k l) as [| t r] eqn:E; [congruence |].
    intros _. exists t. apply groupOf_in. rewrite E. now left.
  - intros [t Ht] E. apply groupOf_in in Ht. rewrite E in Ht. exact Ht.
Qed.

Lemma Grouped_nil : Grouped key [] [].
Proof.
  repeat split; [constructor | intros k []].
Qed.

Lemma some_of_snoc {A : Type} (g : list A) (x : A) :
  match g ++ [x] with [] => None | h => Some h end = Some (g ++ [x]).
Proof. destruct g; reflexivity. Qed.

(** One step of the reduction: it throws on an inherited key and files the
    task in its group otherwise. *)
Lemma groupStep_spec (done : list Task.t) (o : Dict (list Task.t)) (t : Task.t) :
  Grouped key done o ->
  (inherited (key t) = true /\ groupStep key (Ok o) t = Throw TypeError)
  \/ (inherited (key t) = false
      /\ exists o', groupStep key (Ok o) t = Ok o' /\ Grouped key (done ++ [t]) o').
Proof.
  intros (Hnd & Hown & Hplain).
  unfold groupStep, bind, get. cbv zeta.
  destruct (own o (key t)) as [arr |] eqn:E.
  - right.
    assert (Hk : In (key t) (map fst o)).
    { destruct (in_dec string_dec (key t) (map fst o)) as [H | H]; [exact H |].
      apply own_none in H. congruence. }
    split; [now apply Hplain |].
    eexists; split; [reflexivity |].
    assert (Harr : arr = groupOf key (key t) done).
    { specialize (Hown (key t)). rewrite E in Hown.
      destruct (groupOf key (key t) done); congruence. }
    repeat split.
    + rewrite keys_set, E. exact Hnd.
    + intro k. rewrite groupOf_app.
      destruct (string_dec (key t) k) as [<- | Hne].
      * rewrite own_set_same, <- Harr.
        unfold groupOf at 1. simpl. rewrite String.eqb_refl.
        symmetry. apply some_of_snoc.
      * rewrite own_set_other by exact Hne. rewrite Hown.
        unfold groupOf at 3. simpl.
        apply String.eqb_neq in Hne. rewrite Hne, app_nil_r. reflexivity.
    + intro k. rewrite keys_set, E. apply Hplain.
  - destruct (inherited (key t)) eqn:Ei; [left; split; reflexivity | right].
    split; [reflexivity |].
    eexists; split; [reflexivity |].
    assert (Hg : groupOf key (key t) done = []).
    { specialize (Hown (key t)). rewrite E in Hown.
      destruct (groupOf key (key t) done); [reflexivity | discriminate]. }
    repeat split.
    + rewrite keys_set, E.
      apply NoDup_app; [exact Hnd | constructor; [intros [] | constructor] |].
      intros k Hk [<- | []]. apply own_none in E. contradiction.
    + intro k. rewrite groupOf_app.
      destruct (string_dec (key t) k) as [<- | Hne].
      * rewrite own_set_same, Hg.
        unfold groupOf. simpl. rewrite String.eqb_refl. reflexivity.
      * rewrite own_set_other by exact Hne. rewrite Hown.
        unfold groupOf at 3. simpl.
        apply String.eqb_neq in Hne. rewrite Hne, app_nil_r. reflexivity.
    + intro k. rewrite keys_set, E. rewrite in_app_iff.
      intros [Hk | [<- | []]]; [now apply Hplain | exact Ei].
Qed.

Lemma fold_thrown (e : Error) (rest : list Task.t) :
  fold_left (groupStep key) rest (Throw e) = Throw e.
Proof. induction rest as [| t r IH]; simpl; [reflexivity | exact IH]. Qed.

(** The whole reduction from a grouped state: it ends with the groups of
    everything seen when every key is plain, and throws otherwise. *)
Lemma fold_groupStep_spec (rest done : list Task.t) (o : Dict (list Task.t)) :
  Grouped key done o ->
  match fold_left (groupStep key) rest (Ok o) with
  | Ok o' => plainKeys key rest /\ Grouped key (done ++ rest) o'
  | Throw e => e = TypeError /\ exists t, In t rest /\ inherited (key t) = true
  end.
Proof.
  revert done o. induction rest as [| t r IH]; intros done o HG; cbn [fold_left].
  - rewrite app_nil_r. split; [intros t [] | exact HG].
  - destruct (groupStep_spec done o t HG) as [[Hi ->] | [Hi (o' & -> & HG')]].
    + rewrite fold_thrown. split; [reflexivity |]. exists t. split; [now left | exact Hi].
    + specialize (IH (done ++ [t]) o' HG').
      destruct (fold_left (groupStep key) r (Ok o')) as [o'' | e].
      * destruct IH as [Hp HG'']. rewrite <- app_assoc in HG''. split; [| exact HG''].
        intros x [<- | Hx]; [exact Hi | now apply Hp].
      * destruct IH as [He (x & Hx & Hxi)]. split; [exact He |].
        exists x. split; [now right | exact Hxi].
Qed.

Lemma groupBy_spec (tasks : list Task.t) :
  match groupBy key tasks with
  | Ok o => plainKeys key tasks /\ Grouped key tasks o
  | Throw e => e = TypeError /\ exists t, In t tasks /\ inherited (key t) = true
  end.
Proof. exact (fold_groupStep_spec tasks [] [] Grouped_nil). Qed.

(** With plain keys the grouping returns. *)
Lemma groupBy_plain (tasks : list Task.t) :
  plainKeys key tasks -> exists o, groupBy key tasks = Ok o /\ Grouped key tasks o.
Proof.
  intro Hp. pose proof (groupBy_spec tasks) as H.
  destruct (groupBy key tasks) as [o | e].
  - exists o. split; [reflexivity | apply H].
  - destruct H as [_ (t & Ht & Hi)]. rewrite (Hp t Ht) in Hi. discriminate.
Qed.

(** A task whose key is inherited makes the grouping throw. *)
Lemma groupBy_inherited (tasks : list Task.t) (t : Task.t) :
  In t tasks -> inherited (key t) = true -> groupBy key tasks = Throw TypeError.
Proof.
  intros Ht Hi. pose proof (groupBy_spec tasks) as H.
  destruct (groupBy key tasks) as [o | e].
  - destruct H as [Hp _]. rewrite (Hp t Ht) in Hi. discriminate.
  - destruct H as [-> _]. reflexivity.
Qed.

(** What a grouped object holds. *)
Lemma Grouped_entry (tasks : list Task.t) (o : Dict (list Task.t)) (k : string)
  (g : list Task.t) :
  Grouped key tasks o ->
  (In (k, g) o <-> g = groupOf key k tasks /\ g <> []).
Proof.
  intros (Hnd & Hown & _). rewrite <- (own_in o k g Hnd), Hown.
  destruct (groupOf key k tasks) as [| t r].
  - split; [discriminate | intros [-> H]; congruence].
  - split; [intros [= <-]; split; [reflexivity | discriminate] | intros [-> _]; reflexivity].
Qed.

Lemma Grouped_keys (tasks : list Task.t) (o : Dict (list Task.t)) (k : string) :
  Grouped key tasks o ->
  (In k (map fst o) <-> exists t, In t tasks /\ key t = k).
Proof.
  intros HG. rewrite <- groupOf_nonempty. split.
  - rewrite in_map_iff. intros ([k' g] & <- & Hin).
    apply (Grouped_entry tasks o k' g HG) in Hin. simpl. destruct Hin as [<- H]. exact H.
  - intro Hne. rewrite in_map_iff. exists (k, groupOf key k tasks).
    split; [reflexivity |]. apply (Grouped_entry tasks o k _ HG). now split.
Qed.

Lemma indicator_sum (x : string) (ks : list string) :
  NoDup ks ->
  list_sum (map (fun k => if (x =? k)%string then 1 else 0)%nat ks)
  = if in_dec string_dec x ks then 1%nat else 0%nat.
Proof.
  induction 1 as [| k r Hnotin Hnd IH]; simpl; [reflexivity |].
  rewrite IH. destruct (string_dec k x) as [-> | Hne].
  - rewrite String.eqb_refl. destruct (in_dec string_dec x r); [contradiction | reflexivity].
  - assert (x <> k) as Hne' by congruence.
    apply String.eqb_neq in Hne'. rewrite Hne'.
    destruct (in_dec string_dec x r); reflexivity.
Qed.

(** The sizes of the groups under distinct keys that cover the list add up
    to its length. *)
Lemma group_sizes (ks : list string) (l : list Task.t) :
  NoDup ks ->
  (forall t, In t l -> In (key t) ks) ->
  list_sum (map (fun k => length (groupOf key k l)) ks) = length l.
Proof.
  intro Hnd. induction l as [| t r IH]; intro Hcover.
  - clear Hnd Hcover. induction ks as [| k ks' IHk]; simpl; [reflexivity | exact IHk].
  - assert (E : forall k, length (groupOf key k (t :: r))
                   = ((if (key t =? k)%string then 1 else 0)
                      + length (groupOf key k r))%nat).
    { intro k. unfold groupOf. simpl. destruct (key t =? k)%string; reflexivity. }
    rewrite (map_ext _ _ E).
    assert (S : forall (f g : string -> nat) ks',
               list_sum (map (fun k => f k + g k)%nat ks')
               = (list_sum (map f ks') + list_sum (map g ks'))%nat).
    { intros f g ks'. induction ks' as [| k ks' IHk]; simpl; [reflexivity | lia]. }
    rewrite S, indicator_sum by exact Hnd.
    rewrite IH by (intros x Hx; apply Hcover; now right).
    destruct (in_dec string_dec (key t) ks) as [_ | Hn]; [reflexivity |].
    exfalso. apply Hn, Hcover. now left.
Qed.

Lemma Grouped_sizes (tasks : list Task.t) (o : Dict (list Task.t)) :
  Grouped key tasks o ->
  list_sum (map (fun e => length (snd e)) o) = length tasks.
Proof.
  intro HG.
  rewrite <- (group_sizes (map fst o) tasks).
  - rewrite map_map. f_equal. apply map_ext_in. intros [k g] Hin.
    apply (Grouped_entry tasks o k g HG) in Hin. simpl. destruct Hin as [-> _].
    reflexivity.
  - apply HG.
  - intros t Ht. apply (Grouped_keys tasks o _ HG). now exists t.
Qed.

End Grouping.

(** ** Sums and distinct values *)

Section Sums.

Context {A : Type}.

Lemma total_permutation (f : A -> Q) (l l' : list A) :
  Permutation l l' -> total f l == total f l'.
Proof.
  induction 1 as [| x l l' _ IH | x y l | l l' l'' _ IH1 _ IH2]; simpl.
  - reflexivity.
  - rewrite IH. reflexivity.
  - ring.
  - rewrite IH1. exact IH2.
Qed.

Lemma total_map {B : Type} (f : B -> Q) (g : A -> B) (l : list A) :
  total f (map g l) = total (fun x => f (g x)) l.
Proof.
  induction l as [| x r IH]; simpl; [reflexivity | now rewrite IH].
Qed.

Lemma total_ext (f g : A -> Q) (l : list A) :
  (forall x, f x = g x) -> total f l = total g l.
Proof.
  intro E. induction l as [| x r IH]; simpl; [reflexivity | now rewrite E, IH].
Qed.

Lemma total_len (size : A -> nat) (l : list A) :
  total (fun x => inject_Z (Z.of_nat (size x))) l
  == inject_Z (Z.of_nat (list_sum (map size l))).
Proof.
  induction l as [| x r IH]; simpl; [reflexivity |].
  rewrite IH, Nat2Z.inj_add, inject_Z_plus. reflexivity.
Qed.

End Sums.

Section Distinct.

Lemma uniq_in (x : string) (l : list string) : In x (uniq l) <-> In x l.
Proof.
  induction l as [| y r IH]; simpl; [tauto |].
  rewrite filter_In, IH, negb_true_iff, String.eqb_neq.
  destruct (string_dec y x) as [-> | Hne]; [tauto |].
  split; [tauto |]. intros [H | H]; [tauto | right; split; [exact H | congruence]].
Qed.

Lemma uniq_NoDup (l : list string) : NoDup (uniq l).
Proof.
  induction l as [| y r IH]; simpl; constructor.
  - rewrite filter_In, String.eqb_refl. intros [_ H]. discriminate.
  - now apply NoDup_filter.
Qed.

(** The value of [s || d] on the keys of the two aggregations. *)
Lemma or_else_empty (d : string) : or_else "" d = d.
Proof. reflexivity. Qed.

Lemma or_else_nonempty (s d : string) : s <> "" -> or_else s d = s.
Proof.
  intro H. unfold or_else, truthy. apply String.eqb_neq in H. now rewrite H.
Qed.

End Distinct.

(** ** Manager aggregation *)

Section ManagerAggregation.

Lemma managerMetricsOf_manager (e : string * list Task.t) :
  ManagerMetrics.manager (managerMetricsOf e) = fst e.
Proof. destruct e; reflexivity. Qed.

Lemma managerMetricsOf_totalTasks (e : string * list Task.t) :
  ManagerMetrics.totalTasks (managerMetricsOf e) = len (snd e).
Proof. destruct e; reflexivity. Qed.

(** What [calculateManagerMetrics] does on every input: with plain keys,
    one record per group of some grouped object; a [TypeError] as soon as
    a manager key is an inherited name. *)
Lemma calculateManagerMetrics_spec (tasks : list Task.t) :
  match calculateManagerMetrics tasks with
  | Ok ms =>
      plainKeys managerKey tasks
      /\ exists o, Grouped managerKey tasks o
                   /\ Permutation ms (map managerMetricsOf o)
  | Throw e =>
      e = TypeError /\ exists t, In t tasks /\ inherited (managerKey t) = true
  end.
Proof.
  unfold calculateManagerMetrics, tasksByManager.
  destruct tasks as [| t0 r]; cbn [length Nat.eqb].
  - split; [intros t [] |]. exists []. split; [apply Grouped_nil | reflexivity].
  - pose proof (groupBy_spec managerKey (t0 :: r)) as H.
    destruct (groupBy managerKey (t0 :: r)) as [o | e]; cbn [bind]; [| exact H].
    destruct H as [Hp HG]. split; [exact Hp |]. exists o. split; [exact HG |].
    rewrite sort_permutation. apply Permutation_map, entries_permutation.
Qed.

Lemma calculateManagerMetrics_inherited (tasks : list Task.t) (t : Task.t) :
  In t tasks -> inherited (managerKey t) = true ->
  calculateManagerMetrics tasks = Throw TypeError.
Proof.
  intros Ht Hi. pose proof (calculateManagerMetrics_spec tasks) as H.
  destruct (calculateManagerMetrics tasks) as [ms | e].
  - destruct H as [Hp _]. rewrite (Hp t Ht) in Hi. discriminate.
  - destruct H as [-> _]. reflexivity.
Qed.

(** When no manager key is an inherited name, the aggregation is a total
    partition: the groups have distinct managers, every task falls in the
    group of its key ("Unassigned" for an empty manager), each group counts
    exactly the tasks with its key, and the counts add up to the number of
    tasks. *)
Lemma manager_metrics_partition (tasks : list Task.t) :
  plainKeys managerKey tasks ->
  exists ms,
    calculateManagerMetrics tasks = Ok ms
    /\ NoDup (map ManagerMetrics.manager ms)
    /\ (forall t, In t tasks ->
          In (managerKey t) (map ManagerMetrics.manager ms)
          /\ (Task.functionalManager t = "" -> managerKey t = "Unassigned")
          /\ (Task.functionalManager t <> "" -> managerKey t = Task.functionalManager t))
    /\ (forall m, In m ms ->
          groupOf managerKey (ManagerMetrics.manager m) tasks <> []
          /\ ManagerMetrics.totalTasks m
             = len (groupOf managerKey (ManagerMetrics.manager m) tasks))
    /\ total ManagerMetrics.totalTasks ms == len tasks.
Proof.
  intro Hp. pose proof (calculateManagerMetrics_spec tasks) as H.
  destruct (calculateManagerMetrics tasks) as [ms | e].
  2:{ destruct H as [_ (t & Ht & Hi)]. rewrite (Hp t Ht) in Hi. discriminate. }
  destruct H as [_ (o & HG & Hperm)].
  exists ms. split; [reflexivity |].
  assert (Hnames : Permutation (map ManagerMetrics.manager ms) (map fst o)).
  { rewrite Hperm, map_map. erewrite map_ext; [reflexivity |].
    intro e. apply managerMetricsOf_manager. }
  repeat split.
  - rewrite Hnames. apply HG.
  - rewrite Hnames. apply (Grouped_keys managerKey tasks o _ HG). now exists t.
  - intro E. unfold managerKey. rewrite E. reflexivity.
  - intro E. unfold managerKey. now apply or_else_nonempty.
  - apply (Permutation_in _ Hperm), in_map_iff in H as ([k g] & <- & Hin).
    apply (Grouped_entry managerKey tasks o k g HG) in Hin as [-> Hne]. exact Hne.
  - apply (Permutation_in _ Hperm), in_map_iff in H as ([k g] & <- & Hin).
    apply (Grouped_entry managerKey tasks o k g HG) in Hin as [-> Hne]. reflexivity.
  - rewrite (total_permutation _ _ _ Hperm), total_map.
    rewrite (total_ext _ (fun e => inject_Z (Z.of_nat (length (snd e)))))
      by (intro e; apply managerMetricsOf_totalTasks).
    rewrite (total_len (fun e => length (snd e))).
    rewrite (Grouped_sizes managerKey tasks o HG). reflexivity.
Qed.

End ManagerAggregation.

(** C5 on the code: a task whose functional manager is called "constructor"
    is a well-formed input, and on it [calculateManagerMetrics] throws a
    [TypeError] instead of returning the partition ([acc["constructor"]]
    finds [Object.prototype.constructor], which has no [push]).  The
    partition itself holds whenever no manager key is an inherited name
    ([manager_metrics_partition]). *)
Theorem manager_named_constructor_throws :
  inherited "constructor" = true
  /\ calculateManagerMetrics Inputs.managerNamedConstructor = Throw TypeError.
Proof. split; reflexivity. Qed.

(** ** Project aggregation *)

Section ProjectAggregation.

Lemma projectMetricsOf_projectName (e : string * list Task.t) :
  ProjectMetrics.projectName (projectMetricsOf e) = fst e.
Proof. destruct e; reflexivity. Qed.

Lemma projectMetricsOf_ragStatus (e : string * list Task.t) :
  ProjectMetrics.ragStatus (projectMetricsOf e) = mostCommonRAG (snd e).
Proof. destruct e; reflexivity. Qed.

(** The reduction over Red, Amber, Green keeps the later value on a tie. *)
Lemma mostCommonRAG_spec (group : list Task.t) :
  let count := ragCounts group in
  (forall r, count r <= count (mostCommonRAG group))
  /\ (mostCommonRAG group = Red <-> count Amber < count Red /\ count Green < count Red)
  /\ (mostCommonRAG group = Amber <-> count Red <= count Amber /\ count Green < count Amber)
  /\ (mostCommonRAG group = Green <-> count Red <= count Green /\ count Amber <= count Green).
Proof.
  intro count. subst count. unfold mostCommonRAG. cbn [fold_left].
  destruct (gtb (ragCounts group Red) (ragCounts group Amber)) eqn:E1;
    [apply gtb_spec in E1 | apply gtb_false in E1];
    match goal with
    | |- context [gtb ?a ?b] =>
        destruct (gtb a b) eqn:E2; [apply gtb_spec in E2 | apply gtb_false in E2]
    end;
    (split; [intros []; lra |]);
    (split; [| split]);
    (split;
     [ intro Heq; try discriminate Heq; split; lra
     | intros [? ?]; try reflexivity; exfalso; lra ]).
Qed.

Lemma calculateProjectMetrics_spec (tasks : list Task.t) :
  match calculateProjectMetrics tasks with
  | Ok ms =>
      plainKeys projectKey tasks
      /\ exists o, Grouped projectKey tasks o
                   /\ Permutation ms (map projectMetricsOf o)
  | Throw e =>
      e = TypeError /\ exists t, In t tasks /\ inherited (projectKey t) = true
  end.
Proof.
  unfold calculateProjectMetrics, tasksByProject.
  destruct tasks as [| t0 r]; cbn [length Nat.eqb].
  - split; [intros t [] |]. exists []. split; [apply Grouped_nil | reflexivity].
  - pose proof (groupBy_spec projectKey (t0 :: r)) as H.
    destruct (groupBy projectKey (t0 :: r)) as [o | e]; cbn [bind]; [| exact H].
    destruct H as [Hp HG]. split; [exact Hp |]. exists o. split; [exact HG |].
    apply Permutation_map, entries_permutation.
Qed.

(** C4, as the code has it: whenever no project key is an inherited name
    [calculateProjectMetrics] returns, and each record it returns stands
    for a non-empty group whose [ragStatus] is a RAG value with the highest
    task count in the group; on a tie the LATER value in the order Red,
    Amber, Green wins: Red needs strictly more tasks than Amber and Green,
    Amber at least as many as Red and strictly more than Green, and Green
    only at least as many as both. *)
Theorem project_rag_status_is_most_common (tasks : list Task.t) :
  (plainKeys projectKey tasks -> exists ms, calculateProjectMetrics tasks = Ok ms)
  /\ (forall ms, calculateProjectMetrics tasks = Ok ms ->
      forall m, In m ms ->
        let group := groupOf projectKey (ProjectMetrics.projectName m) tasks in
        let count := ragCounts group in
        let status := ProjectMetrics.ragStatus m in
        group <> []
        /\ (forall r, count r <= count status)
        /\ (status = Red <-> count Amber < count Red /\ count Green < count Red)
        /\ (status = Amber <-> count Red <= count Amber /\ count Green < count Amber)
        /\ (status = Green <-> count Red <= count Green /\ count Amber <= count Green)).
Proof.
  pose proof (calculateProjectMetrics_spec tasks) as H. split.
  - intro Hp. destruct (calculateProjectMetrics tasks) as [ms | e].
    + now exists ms.
    + destruct H as [_ (t & Ht & Hi)]. rewrite (Hp t Ht) in Hi. discriminate.
  - intros ms E. rewrite E in H. destruct H as [_ (o & HG & Hperm)].
    intros m Hm.
    apply (Permutation_in _ Hperm), in_map_iff in Hm as ([k g] & <- & Hin).
    apply (Grouped_entry projectKey tasks o k g HG) in Hin as [-> Hne].
    rewrite projectMetricsOf_projectName, projectMetricsOf_ragStatus.
    cbn [fst snd]. cbv zeta. split; [exact Hne |].
    apply mostCommonRAG_spec.
Qed.

(** C4 as stated fails: in a project with one Red and one Amber task (and
    no Green one) the two counts tie for the highest, and the status is
    Amber, not Red. *)
Lemma project_rag_tie_goes_to_amber :
  ragCounts Inputs.redAndAmber Red == ragCounts Inputs.redAndAmber Amber
  /\ ragCounts Inputs.redAndAmber Green < ragCounts Inputs.redAndAmber Red
  /\ (exists m, calculateProjectMetrics Inputs.redAndAmber = Ok [m]
                /\ ProjectMetrics.ragStatus m = Amber)
  /\ ~ (exists ms, calculateProjectMetrics Inputs.redAndAmber = Ok ms
                   /\ forall m, In m ms -> ProjectMetrics.ragStatus m = Red).
Proof.
  repeat split.
  - eexists. split; reflexivity.
  - intros (ms & E & H). vm_compute in E. injection E as <-.
    specialize (H _ (or_introl eq_refl)). discriminate.
Qed.

End ProjectAggregation.

(** ** The portfolio roll-up *)

Section Portfolio.

(** On a non-empty list with plain manager keys, the roll-up returns and
    counts the distinct raw project names, the empty name included. *)
Lemma portfolio_counts_raw_project_names (tasks : list Task.t) :
  tasks <> [] ->
  plainKeys managerKey tasks ->
  exists pm,
    calculatePortfolioMetrics tasks = Ok pm
    /\ PortfolioMetrics.totalProjects pm = len (uniq (map Task.projectName tasks))
    /\ NoDup (uniq (map Task.projectName tasks))
    /\ (forall name, In name (uniq (map Task.projectName tasks))
                     <-> exists t, In t tasks /\ Task.projectName t = name).
Proof.
  intros Hne Hp. unfold calculatePortfolioMetrics.
  destruct tasks as [| t0 r]; [congruence |]. cbn [length Nat.eqb].
  destruct (manager_metrics_partition (t0 :: r) Hp) as (ms & -> & _).
  cbn [bind]. eexists. split; [reflexivity |]. cbn [PortfolioMetrics.totalProjects].
  split; [reflexivity |]. split; [apply uniq_NoDup |].
  intro name. rewrite uniq_in, in_map_iff. split; intros (t & H1 & H2); exists t; tauto.
Qed.

(** The project aggregation merges the empty name into "Unnamed Project":
    it never returns more groups than there are distinct raw names, and
    returns fewer when both the empty name and "Unnamed Project" occur. *)
Lemma project_groups_merge_unnamed (tasks : list Task.t) :
  plainKeys projectKey tasks ->
  let names := uniq (map Task.projectName tasks) in
  exists groups,
    calculateProjectMetrics tasks = Ok groups
    /\ (length groups <= length names)%nat
    /\ (In "" names -> In "Unnamed Project" names ->
        (length groups < length names)%nat).
Proof.
  intros Hp names. pose proof (calculateProjectMetrics_spec tasks) as H.
  destruct (calculateProjectMetrics tasks) as [groups | e].
  2:{ destruct H as [_ (t & Ht & Hi)]. rewrite (Hp t Ht) in Hi. discriminate. }
  destruct H as [_ (o & HG & Hperm)].
  exists groups. split; [reflexivity |].
  assert (Hlen : length groups = length (map fst o)).
  { rewrite (Permutation_length Hperm), !length_map. reflexivity. }
  assert (Hkeys : forall k, In k (map fst o) ->
                            exists name, In name names /\ k = or_else name "Unnamed Project").
  { intros k Hk. apply (Grouped_keys projectKey tasks o k HG) in Hk as (t & Ht & <-).
    exists (Task.projectName t). split; [| reflexivity].
    apply uniq_in, in_map. exact Ht. }
  rewrite Hlen. split.
  - rewrite <- (length_map (fun name => or_else name "Unnamed Project") names).
    apply NoDup_incl_length; [apply HG |].
    intros k Hk. destruct (Hkeys k Hk) as (name & Hn & ->).
    exact (in_map (fun name => or_else name "Unnamed Project") names name Hn).
  - intros Hempty Hunnamed.
    apply Nat.le_lt_trans with (length (remove string_dec "" names)).
    + apply NoDup_incl_length; [apply HG |].
      intros k Hk. destruct (Hkeys k Hk) as (name & Hn & ->).
      apply in_in_remove.
      * unfold or_else, truthy.
        destruct (name =? "")%string eqn:E; simpl; [discriminate |].
        now apply String.eqb_neq in E.
      * destruct (string_dec name "") as [-> | Hne].
        -- rewrite or_else_empty. exact Hunnamed.
        -- now rewrite or_else_nonempty.
    + now apply remove_length_lt.
Qed.

End Portfolio.

(** C9 on the code: a non-empty task list with the project names "" and
    "Unnamed Project" and a manager called "toString" is a well-formed input,
    and on it [calculatePortfolioMetrics] sets no [totalProjects]: the
    manager aggregation it calls throws a [TypeError].  This is the defect
    shown for [calculateManagerMetrics]; on inputs whose keys are plain the
    count and the comparison hold ([portfolio_counts_raw_project_names],
    [project_groups_merge_unnamed]). *)
Theorem portfolio_with_manager_named_toString_throws :
  inherited "toString" = true
  /\ len (uniq (map Task.projectName Inputs.managerNamedToString)) == 2
  /\ calculatePortfolioMetrics Inputs.managerNamedToString = Throw TypeError.
Proof. repeat split. Qed.

(** ** The behavioural pattern detector *)

(** Case analysis on which of the four rules fire. *)
Ltac by_rules tasks managerMetrics :=
  destruct (gtb (len (filter isOptimist managerMetrics)) 0);
  destruct (gtb (len (filter isGenericAbuser managerMetrics)) 0);
  destruct (gtb (len (filter isVolatile tasks)) (len tasks * 0.2)).

Section Detector.

Variable tasks : list Task.t.
Variable managerMetrics : list ManagerMetrics.t.






(** The pattern types found, rule by rule. *)
Lemma patternsFound_types :
  map BehaviouralPattern.patternType (patternsFound tasks managerMetrics)
  = (if gtb (len (filter isOptimist managerMetrics)) 0 then [chronic_optimism] else [])
    ++ (if gtb (len (filter isGenericAbuser managerMetrics)) 0
        then [generic_resource_overuse] else [])
    ++ (if gtb (len (filter isVolatile tasks)) (len tasks * 0.2)
        then [critical_path_instability] else [])
    ++ (if gtb (len (filter (isHoarder tasks) managerMetrics)) 0
        then [resource_hoarding] else []).
Proof.
  unfold patternsFound. cbv zeta.
  by_rules tasks managerMetrics;
    destruct (gtb (len (filter (isHoarder tasks) managerMetrics)) 0);
    reflexivity.
Qed.



End Detector.

Section Means.

Context {A : Type}.
Variable f : A -> Q.





End Means.

Section HoardingRule.

Variable tasks : list Task.t.
Variable managerMetrics : list ManagerMetrics.t.



(** C10: the detector returns at most one pattern of each type, hence at
    most four patterns, listed from the most to the least severe. *)
Theorem patterns_distinct_and_sorted :
  let patterns := detectBehaviouralPatterns tasks managerMetrics in
  NoDup (map BehaviouralPattern.patternType patterns)
  /\ (length patterns <= 4)%nat
  /\ StronglySorted notLessSevere patterns.
Proof.
  intro patterns. unfold patterns, detectBehaviouralPatterns.
  pose proof (sort_permutation bySeverityDescending (patternsFound tasks managerMetrics))
    as Hperm.
  pose proof (patternsFound_types tasks managerMetrics) as Hty.
  assert (Hnd : NoDup (map BehaviouralPattern.patternType
                           (patternsFound tasks managerMetrics))
                /\ (length (map BehaviouralPattern.patternType
                                (patternsFound tasks managerMetrics)) <= 4)%nat).
  { rewrite Hty.
    by_rules tasks managerMetrics;
      destruct (gtb (len (filter (isHoarder tasks) managerMetrics)) 0);
      cbn [app length]; (split; [| lia]);
      repeat (constructor; [cbn [In]; intuition discriminate |]); constructor. }
  destruct Hnd as [Hnd Hlen]. rewrite length_map in Hlen.
  repeat split.
  - apply (Permutation_NoDup (l := map BehaviouralPattern.patternType
                                     (patternsFound tasks managerMetrics)));
      [| exact Hnd].
    apply Permutation_map. symmetry. exact Hperm.
  - rewrite (Permutation_length Hperm). exact Hlen.
  - apply (sort_sorted bySeverityDescending
             (fun p => severityOrder (BehaviouralPattern.severity p))).
    reflexivity.
Qed.

End HoardingRule.

(** The scenario of the design document, through the whole pipeline: six
    tasks of one manager at 40% utilisation are flagged as resource hoarding,
    with high severity since the manager is the only one. *)
Lemma six_tasks_at_forty_are_hoarding :
  exists ms, calculateManagerMetrics Inputs.sixAtForty = Ok ms
  /\ map (fun p => (BehaviouralPattern.patternType p,
                    BehaviouralPattern.severity p,
                    BehaviouralPattern.affectedManagers p))
         (detectBehaviouralPatterns Inputs.sixAtForty ms)
     = [(resource_hoarding, high, ["Ana"])].
Proof. eexists. split; reflexivity. Qed.

(** The "Unassigned" bucket is matched by name as well: its six tasks carry
    an empty manager, none is called "Unassigned", so the mean is taken over
    no task and is 0, and the bucket is reported whatever its tasks'
    utilisation. *)
Lemma unassigned_bucket_is_matched_by_name :
  meanUtilisation Inputs.sixUnassignedAtNinety "Unassigned" = 0
  /\ exists ms, calculateManagerMetrics Inputs.sixUnassignedAtNinety = Ok ms
     /\ map (fun p => (BehaviouralPattern.patternType p,
                       BehaviouralPattern.affectedManagers p))
            (detectBehaviouralPatterns Inputs.sixUnassignedAtNinety ms)
        = [(resource_hoarding, ["Unassigned"])].
Proof. split; [reflexivity |]. eexists. split; reflexivity. Qed.

(** Three raw project names, two project groups: the empty name and
    "Unnamed Project" share a group. *)
Lemma unnamed_projects_counted_twice :
  exists pm groups,
    calculatePortfolioMetrics Inputs.unnamedTwice = Ok pm
    /\ calculateProjectMetrics Inputs.unnamedTwice = Ok groups
    /\ PortfolioMetrics.totalProjects pm == 3
    /\ map ProjectMetrics.projectName groups = ["Unnamed Project"; "Apollo"].
Proof. do 2 eexists. repeat split. Qed.


(** * Further properties of the calculation module *)

(** ** Percentages and bounds *)

Section Percentages.

Lemma ratio_is_percentage (a b : Q) :
  0 <= a -> a <= b -> 0 < b -> isPercentage (a / b * 100).
Proof.
  intros Ha Hab Hb. unfold isPercentage.
  assert (H0 : 0 <= a / b) by (apply Qle_shift_div_l; [exact Hb | lra]).
  assert (H1 : a / b <= 1) by (apply Qle_shift_div_r; [exact Hb | lra]).
  split; lra.
Qed.

Lemma len_filter_le {A : Type} (f : A -> bool) (l : list A) : len (filter f l) <= len l.
Proof.
  unfold len. rewrite <- Zle_Qle. pose proof (filter_length_le f l). lia.
Qed.

Lemma len_0_le {A : Type} (l : list A) : 0 <= len l.
Proof. unfold len. change 0 with (inject_Z 0). rewrite <- Zle_Qle. lia. Qed.

(** The share of a non-empty list that passes a test is a percentage. *)
Lemma share_is_percentage {A : Type} (f : A -> bool) (l : list A) :
  l <> [] -> isPercentage (len (filter f l) / len l * 100).
Proof.
  intro Hne. apply ratio_is_percentage;
    [apply len_0_le | apply len_filter_le | now apply len_pos].
Qed.

Lemma zero_is_percentage : isPercentage 0.
Proof. split; [apply Qle_refl | discriminate]. Qed.

Lemma ownedBy_scope (tasks : list Task.t) (manager : option string) :
  match given manager with
  | Some m => filter (managedBy m) tasks
  | None => tasks
  end = filter (ownedBy manager) tasks.
Proof.
  unfold given, ownedBy, truthy, managedBy.
  destruct manager as [m |]; [destruct (m =? "")%string |]; simpl.
  - symmetry. apply forallb_filter_id. now apply forallb_forall.
  - reflexivity.
  - symmetry. apply forallb_filter_id. now apply forallb_forall.
Qed.

(** The share is 100 exactly when every element passes the test. *)
Lemma full_share {A : Type} (f : A -> bool) (l : list A) :
  l <> [] ->
  (len (filter f l) / len l * 100 == 100
   <-> l <> [] /\ forall x, In x l -> f x = true).
Proof.
  intro Hne. pose proof (len_pos l Hne) as Hpos. split.
  - intro H100. split; [exact Hne |].
    assert (Hlen : len (filter f l) == len l).
    { assert (Hq : len (filter f l) / len l == 1) by lra.
      rewrite <- (Qmult_1_l (len l)), <- Hq. field. lra. }
    assert (Hn : length (filter f l) = length l).
    { unfold len in Hlen. apply (proj1 (inject_Z_injective _ _)) in Hlen. lia. }
    intros x Hx. destruct (f x) eqn:Ef; [reflexivity |].
    pose proof (filter_drops f x l Hx Ef). lia.
  - intros [_ Hall].
    rewrite (forallb_filter_id f l) by (now apply forallb_forall).
    field. lra.
Qed.

Lemma forecast_accuracy_bounds (tasks : list Task.t) (manager : option string) :
  isPercentage (calculateForecastAccuracy tasks manager).
Proof.
  rewrite calculateForecastAccuracy_unfold. cbv zeta.
  destruct (filter (inScope manager) tasks) as [| t r] eqn:E.
  - apply zero_is_percentage.
  - cbn [length Nat.eqb]. apply share_is_percentage. discriminate.
Qed.

(** X1: forecast accuracy is a percentage, for every task list and every
    manager filter; it is 100 exactly when there is a Completed task in
    scope and every Completed task in scope has both end dates and ended no
    later than planned. *)
Theorem forecast_accuracy_is_percentage (tasks : list Task.t) (manager : option string) :
  let scope := filter (inScope manager) tasks in
  isPercentage (calculateForecastAccuracy tasks manager)
  /\ (calculateForecastAccuracy tasks manager == 100
      <-> scope <> [] /\ forall t, In t scope -> endedOnTime t = true).
Proof.
  intro scope. split; [apply forecast_accuracy_bounds |].
  rewrite calculateForecastAccuracy_unfold. fold scope. cbv zeta.
  destruct scope as [| t0 r] eqn:E.
  - cbn [length Nat.eqb]. split; [discriminate | intros [H _]; congruence].
  - cbn [length Nat.eqb]. apply full_share. discriminate.
Qed.

Lemma generic_bounds (tasks : list Task.t) (manager : option string) :
  isPercentage (calculateGenericResourcePercentage tasks manager).
Proof.
  unfold calculateGenericResourcePercentage. rewrite ownedBy_scope. cbv zeta.
  destruct (filter (ownedBy manager) tasks) as [| t0 r] eqn:E.
  - apply zero_is_percentage.
  - cbn [length Nat.eqb]. apply share_is_percentage. discriminate.
Qed.

(** X2: the generic-resource percentage is a percentage, for every task
    list and every manager filter; it is 0 when no task is in scope and 100
    exactly when every task in scope has a generic resource. *)
Theorem generic_resource_percentage_is_percentage
  (tasks : list Task.t) (manager : option string) :
  let scope := filter (ownedBy manager) tasks in
  isPercentage (calculateGenericResourcePercentage tasks manager)
  /\ (scope = [] -> calculateGenericResourcePercentage tasks manager = 0)
  /\ (scope <> [] ->
      (calculateGenericResourcePercentage tasks manager == 100
       <-> forall t, In t scope -> isGeneric t = true)).
Proof.
  intro scope. split; [apply generic_bounds |].
  unfold calculateGenericResourcePercentage.
  rewrite ownedBy_scope. fold scope. cbv zeta.
  destruct scope as [| t0 r] eqn:E.
  - split; [reflexivity | congruence].
  - cbn [length Nat.eqb]. split; [discriminate |]. intros _.
    rewrite full_share by discriminate. split; [intros [_ H]; exact H | intro H].
    split; [discriminate | exact H].
Qed.

End Percentages.

Section Scores.












End Scores.

(** ** Means *)

Section MeanBounds.

Context {A : Type}.
Variable f : A -> Q.










End MeanBounds.

(** ** Duration variance and utilisation *)

Section DurationAndUtilisation.

Variable tasks : list Task.t.
Variable manager : option string.






End DurationAndUtilisation.

(** ** Project risks *)

Section Risks.

Lemma some_pass {A : Type} (f : A -> bool) (l : list A) :
  gtb (len (filter f l)) 0 = true <-> exists x, In x l /\ f x = true.
Proof.
  rewrite len_gtb_0, negb_true_iff, Nat.eqb_neq. split.
  - destruct (filter f l) as [| x r] eqn:E; [simpl; congruence |].
    intros _. exists x. apply filter_In. rewrite E. now left.
  - intros (x & Hx) E. apply filter_In in Hx.
    apply length_zero_iff_nil in E. rewrite E in Hx. exact Hx.
Qed.

(** Six optional entries, cut to five: what is kept. *)
Lemma first_five_of_six {K : Type} (k1 k2 k3 k4 k5 k6 : K) (b1 b2 b3 b4 b5 b6 : bool) :
  firstn 5 ((if b1 then [k1] else []) ++ (if b2 then [k2] else [])
            ++ (if b3 then [k3] else []) ++ (if b4 then [k4] else [])
            ++ (if b5 then [k5] else []) ++ (if b6 then [k6] else []))
  = (if b1 then [k1] else []) ++ (if b2 then [k2] else [])
    ++ (if b3 then [k3] else []) ++ (if b4 then [k4] else [])
    ++ (if b5 then [k5] else [])
    ++ (if b6 && negb (b1 && b2 && b3 && b4 && b5) then [k6] else []).
Proof. destruct b1, b2, b3, b4, b5, b6; reflexivity. Qed.

(** The kinds kept, for given outcomes of the six tests. *)
Lemma kinds_kept (b1 b2 b3 b4 b5 b6 : bool) :
  let kinds :=
    (if b1 then [lowForecastAccuracy] else [])
    ++ (if b2 then [highGenericResourceUsage] else [])
    ++ (if b3 then [largeDurationVariance] else [])
    ++ (if b4 then [oversizedCriticalPath] else [])
    ++ (if b5 then [highVolatilityTasks] else [])
    ++ (if b6 then [overBudgetTasks] else []) in
  StronglySorted (fun a b => (riskRank a < riskRank b)%nat) kinds
  /\ (In lowForecastAccuracy kinds <-> b1 = true)
  /\ (In highGenericResourceUsage kinds <-> b2 = true)
  /\ (In largeDurationVariance kinds <-> b3 = true)
  /\ (In oversizedCriticalPath kinds <-> b4 = true)
  /\ (In highVolatilityTasks kinds <-> b5 = true)
  /\ (In overBudgetTasks kinds <-> b6 = true).
Proof.
  destruct b1, b2, b3, b4, b5, b6; cbn [app];
    (split;
     [ repeat (constructor; [repeat constructor; cbn [riskRank]; lia |]); constructor
     | cbn [In]; repeat split; intros;
       repeat match goal with
              | H : _ \/ _ |- _ => destruct H
              | H : False |- _ => destruct H
              end;
       try discriminate; tauto ]).
Qed.

Lemma risk_kinds (projectTasks : list Task.t) (metrics : ProjectMetrics.t) :
  let b1 := ltb (ProjectMetrics.forecastAccuracy metrics) 60 in
  let b2 := gtb (ProjectMetrics.genericResourcePct metrics) 60 in
  let b3 := gtb (ProjectMetrics.avgDurationVariance metrics) 20 in
  let b4 := gtb (ProjectMetrics.criticalPathTasksPct metrics) 35 in
  let b5 := gtb (len (filter isVolatile projectTasks)) 0 in
  let b6 := gtb (len (filter (fun t => gtb (Task.totalSpent t) (Task.plannedBudget t * 1.1))
                             projectTasks)) 0 in
  map riskKind (identifyProjectRisks projectTasks metrics)
  = (if b1 then [lowForecastAccuracy] else [])
    ++ (if b2 then [highGenericResourceUsage] else [])
    ++ (if b3 then [largeDurationVariance] else [])
    ++ (if b4 then [oversizedCriticalPath] else [])
    ++ (if b5 then [highVolatilityTasks] else [])
    ++ (if b6 && negb (b1 && b2 && b3 && b4 && b5) then [overBudgetTasks] else []).
Proof.
  intros b1 b2 b3 b4 b5 b6. rewrite <- first_five_of_six.
  unfold identifyProjectRisks, pushIf. cbv zeta. rewrite <- firstn_map.
  change (fun t => gtb (Task.criticalPathVolatility t) 5) with isVolatile.
  fold b1 b2 b3 b4 b5 b6.
  destruct b1, b2, b3, b4, b5, b6; reflexivity.
Qed.

(** X7: [identifyProjectRisks] reports at most five risks, in the fixed
    order of the six kinds and each kind at most once.  The four metric
    risks and the volatility risk are reported exactly when their condition
    holds; the over-budget risk, examined last, is reported exactly when some
    task is over budget by more than 10% and at least one of the five
    earlier risks is absent. *)
Theorem project_risks_keep_first_five
  (projectTasks : list Task.t) (metrics : ProjectMetrics.t) :
  let kinds := map riskKind (identifyProjectRisks projectTasks metrics) in
  let someVolatile := exists t, In t projectTasks /\ volatile t in
  (length (identifyProjectRisks projectTasks metrics) <= 5)%nat
  /\ StronglySorted (fun a b => (riskRank a < riskRank b)%nat) kinds
  /\ (In lowForecastAccuracy kinds <-> ProjectMetrics.forecastAccuracy metrics < 60)
  /\ (In highGenericResourceUsage kinds <-> 60 < ProjectMetrics.genericResourcePct metrics)
  /\ (In largeDurationVariance kinds <-> 20 < ProjectMetrics.avgDurationVariance metrics)
  /\ (In oversizedCriticalPath kinds <-> 35 < ProjectMetrics.criticalPathTasksPct metrics)
  /\ (In highVolatilityTasks kinds <-> someVolatile)
  /\ (In overBudgetTasks kinds
      <-> (exists t, In t projectTasks /\ overBudget t)
          /\ ~ (ProjectMetrics.forecastAccuracy metrics < 60
                /\ 60 < ProjectMetrics.genericResourcePct metrics
                /\ 20 < ProjectMetrics.avgDurationVariance metrics
                /\ 35 < ProjectMetrics.criticalPathTasksPct metrics
                /\ someVolatile)).
Proof.
  intros kinds someVolatile.
  assert (Hlen : (length (identifyProjectRisks projectTasks metrics) <= 5)%nat).
  { unfold identifyProjectRisks. cbv zeta. apply firstn_le_length. }
  split; [exact Hlen |].
  pose proof (risk_kinds projectTasks metrics) as Hk. cbv zeta in Hk. fold kinds in Hk.
  pose proof (ltb_spec (ProjectMetrics.forecastAccuracy metrics) 60) as H1.
  pose proof (gtb_spec (ProjectMetrics.genericResourcePct metrics) 60) as H2.
  pose proof (gtb_spec (ProjectMetrics.avgDurationVariance metrics) 20) as H3.
  pose proof (gtb_spec (ProjectMetrics.criticalPathTasksPct metrics) 35) as H4.
  assert (H5 : gtb (len (filter isVolatile projectTasks)) 0 = true <-> someVolatile).
  { rewrite some_pass. unfold someVolatile, volatile, isVolatile.
    split; intros (t & Ht & Hv); exists t; (split; [exact Ht |]); now apply gtb_spec. }
  assert (H6 : gtb (len (filter (fun t => gtb (Task.totalSpent t)
                                               (Task.plannedBudget t * 1.1))
                                projectTasks)) 0 = true
               <-> exists t, In t projectTasks /\ overBudget t).
  { rewrite some_pass. unfold overBudget.
    split; intros (t & Ht & Hv); exists t; (split; [exact Ht |]); now apply gtb_spec. }
  rewrite Hk. clear Hk.
  match goal with
  | |- context [if ?b && negb ?c then _ else _] =>
      assert (H6' : b && negb c = true
                    <-> (exists t, In t projectTasks /\ overBudget t)
                        /\ ~ (ProjectMetrics.forecastAccuracy metrics < 60
                              /\ 60 < ProjectMetrics.genericResourcePct metrics
                              /\ 20 < ProjectMetrics.avgDurationVariance metrics
                              /\ 35 < ProjectMetrics.criticalPathTasksPct metrics
                              /\ someVolatile));
      [ rewrite andb_true_iff, negb_true_iff, <- not_true_iff_false, !andb_true_iff;
        tauto
      | generalize dependent (b && negb c); intros b6 H6' ]
  end.
  clear H6.
  pose proof (kinds_kept (ltb (ProjectMetrics.forecastAccuracy metrics) 60)
                         (gtb (ProjectMetrics.genericResourcePct metrics) 60)
                         (gtb (ProjectMetrics.avgDurationVariance metrics) 20)
                         (gtb (ProjectMetrics.criticalPathTasksPct metrics) 35)
                         (gtb (len (filter isVolatile projectTasks)) 0) b6) as Hl.
  cbv zeta in Hl. tauto.
Qed.

End Risks.

(** ** Prediction *)

Section Prediction.

Lemma predictRAGStatus_cases (m : ProjectMetrics.t) :
  (breachesRed m /\ predictRAGStatus m = Red)
  \/ (~ breachesRed m /\ breachesAmber m /\ predictRAGStatus m = Amber)
  \/ (~ breachesRed m /\ ~ breachesAmber m /\ predictRAGStatus m = Green).
Proof.
  pose proof (red_rule m) as HR. pose proof (amber_rule m) as HA.
  unfold predictRAGStatus.
  destruct (ltb (ProjectMetrics.forecastAccuracy m) 50
            || gtb (ProjectMetrics.genericResourcePct m) 80
            || gtb (ProjectMetrics.avgDurationVariance m) 25
            || gtb (ProjectMetrics.criticalPathTasksPct m) 40) eqn:ER;
    [| destruct (ltb (ProjectMetrics.forecastAccuracy m) 70
                 || gtb (ProjectMetrics.genericResourcePct m) 50
                 || gtb (ProjectMetrics.avgDurationVariance m) 15
                 || gtb (ProjectMetrics.criticalPathTasksPct m) 30) eqn:EA ].
  - left. split; [now apply HR | reflexivity].
  - right; left. repeat split; [intro B; apply HR in B; discriminate | now apply HA].
  - right; right.
    repeat split; [intro B; apply HR in B | intro B; apply HA in B]; discriminate.
Qed.

(** X8: the RAG predictor is monotone: when a project's forecast accuracy
    does not rise and its generic-resource percentage, duration variance and
    critical-path share do not fall, the predicted status does not improve
    (Green, Amber, Red in increasing order of risk). *)
Theorem predicted_status_never_improves_on_worse_metrics (m m' : ProjectMetrics.t) :
  ProjectMetrics.forecastAccuracy m' <= ProjectMetrics.forecastAccuracy m ->
  ProjectMetrics.genericResourcePct m <= ProjectMetrics.genericResourcePct m' ->
  ProjectMetrics.avgDurationVariance m <= ProjectMetrics.avgDurationVariance m' ->
  ProjectMetrics.criticalPathTasksPct m <= ProjectMetrics.criticalPathTasksPct m' ->
  (ragRisk (predictRAGStatus m) <= ragRisk (predictRAGStatus m'))%nat.
Proof.
  intros Hfa Hgp Hdv Hcp.
  assert (HR : breachesRed m -> breachesRed m').
  { unfold breachesRed. intros [H | [H | [H | H]]];
      [left | right; left | right; right; left | right; right; right]; lra. }
  assert (HA : breachesAmber m -> breachesRed m' \/ breachesAmber m').
  { unfold breachesAmber. intros [H | [H | [H | H]]]; right;
      [left | right; left | right; right; left | right; right; right]; lra. }
  destruct (predictRAGStatus_cases m) as [[B ->] | [(NB & B & ->) | (NB & NA & ->)]];
    destruct (predictRAGStatus_cases m') as [[B' ->] | [(NB' & B' & ->) | (NB' & NA' & ->)]];
    cbn [ragRisk]; try lia; exfalso; tauto.
Qed.

Lemma predicted_status_never_improves_example :
  let m := ProjectMetrics.mk "Apollo" 10 50 75 10 30 10 Green Green [] in
  let m' := ProjectMetrics.mk "Apollo" 10 50 65 10 30 10 Green Green [] in
  predictRAGStatus m = Green /\ predictRAGStatus m' = Amber
  /\ (ragRisk (predictRAGStatus m) <= ragRisk (predictRAGStatus m'))%nat.
Proof.
  cbv zeta. split; [reflexivity |]. split; [reflexivity |].
  apply (predicted_status_never_improves_on_worse_metrics
           (ProjectMetrics.mk "Apollo" 10 50 75 10 30 10 Green Green [])
           (ProjectMetrics.mk "Apollo" 10 50 65 10 30 10 Green Green []));
    cbn; discriminate.
Defined.



End Prediction.

(** ** Errors of the aggregations *)

Section AggregationErrors.

Lemma calculatePortfolioMetrics_spec (tasks : list Task.t) :
  match calculatePortfolioMetrics tasks with
  | Ok pm =>
      calculateManagerMetrics tasks = Ok (PortfolioMetrics.managerMetrics pm)
      /\ PortfolioMetrics.totalProjects pm = len (uniq (map Task.projectName tasks))
      /\ PortfolioMetrics.totalTasks pm = len tasks
      /\ PortfolioMetrics.avgForecastAccuracy pm = calculateForecastAccuracy tasks None
      /\ PortfolioMetrics.genericResourcePct pm
         = calculateGenericResourcePercentage tasks None
      /\ PortfolioMetrics.criticalPathTasksPct pm
         = (if (length tasks =? 0)%nat then 0
            else len (filter Task.criticalPathRisk tasks) / len tasks * 100)
      /\ PortfolioMetrics.ragDistribution pm
         = RagDistribution.mk (len (filter (hasRAG Red) tasks))
                              (len (filter (hasRAG Amber) tasks))
                              (len (filter (hasRAG Green) tasks))
  | Throw e => calculateManagerMetrics tasks = Throw e
  end.
Proof.
  unfold calculatePortfolioMetrics.
  destruct tasks as [| t0 r]; cbn [length Nat.eqb].
  - repeat split.
  - destruct (calculateManagerMetrics (t0 :: r)) as [ms | e]; cbn [bind];
      [repeat split | reflexivity].
Qed.

Lemma thrown_is_TypeError {A : Type} (r : Result A) (P : Prop) :
  match r with Ok _ => ~ P | Throw e => e = TypeError /\ P end ->
  (r = Throw TypeError <-> P).
Proof.
  destruct r as [a | e]; intro H.
  - split; [discriminate | intro HP; contradiction].
  - destruct H as [-> HP]. split; [intros _; exact HP | reflexivity].
Qed.

(** X9: the three aggregations throw exactly on inherited names:
    [calculateManagerMetrics] and [calculatePortfolioMetrics] throw a
    [TypeError] when, and only when, some task's manager key is the name of
    a member of [Object.prototype]; [calculateProjectMetrics] when, and only
    when, some task's project key is.  On every other input, the empty list
    included, they return. *)
Theorem aggregations_throw_exactly_on_inherited_names (tasks : list Task.t) :
  (calculateManagerMetrics tasks = Throw TypeError
   <-> exists t, In t tasks /\ inherited (managerKey t) = true)
  /\ (calculateProjectMetrics tasks = Throw TypeError
      <-> exists t, In t tasks /\ inherited (projectKey t) = true)
  /\ (calculatePortfolioMetrics tasks = Throw TypeError
      <-> exists t, In t tasks /\ inherited (managerKey t) = true).
Proof.
  assert (HM : calculateManagerMetrics tasks = Throw TypeError
               <-> exists t, In t tasks /\ inherited (managerKey t) = true).
  { apply thrown_is_TypeError. pose proof (calculateManagerMetrics_spec tasks) as H.
    destruct (calculateManagerMetrics tasks); [| exact H].
    destruct H as [Hp _]. intros (t & Ht & Hi). rewrite (Hp t Ht) in Hi. discriminate. }
  split; [exact HM |]. split.
  - apply thrown_is_TypeError. pose proof (calculateProjectMetrics_spec tasks) as H.
    destruct (calculateProjectMetrics tasks); [| exact H].
    destruct H as [Hp _]. intros (t & Ht & Hi). rewrite (Hp t Ht) in Hi. discriminate.
  - rewrite <- HM. pose proof (calculatePortfolioMetrics_spec tasks) as H.
    destruct (calculatePortfolioMetrics tasks) as [pm | e].
    + destruct H as [H _]. rewrite H. split; discriminate.
    + rewrite H. split; intros [= ->]; reflexivity.
Qed.

End AggregationErrors.

(** ** The manager records *)

Section ManagerRecords.

Lemma rag_counts_add_up (l : list Task.t) :
  len (filter (hasRAG Red) l) + len (filter (hasRAG Amber) l)
  + len (filter (hasRAG Green) l) == len l.
Proof.
  unfold len. rewrite <- !inject_Z_plus. apply inject_Z_injective.
  rewrite <- !Nat2Z.inj_add. f_equal.
  induction l as [| t r IH]; [reflexivity |].
  cbn [filter].
  assert (Hcase : (hasRAG Red t, hasRAG Amber t, hasRAG Green t) = (true, false, false)
                  \/ (hasRAG Red t, hasRAG Amber t, hasRAG Green t) = (false, true, false)
                  \/ (hasRAG Red t, hasRAG Amber t, hasRAG Green t) = (false, false, true)).
  { unfold hasRAG. destruct (Task.projectHealthRAG t); cbn; tauto. }
  destruct Hcase as [[= -> -> ->] | [[= -> -> ->] | [= -> -> ->]]]; cbn [length]; lia.
Qed.

(** The records returned stand for the non-empty groups. *)
Lemma manager_records (tasks : list Task.t) (ms : list ManagerMetrics.t) :
  calculateManagerMetrics tasks = Ok ms ->
  forall m, In m ms ->
    exists k g, m = managerMetricsOf (k, g)
                /\ g = groupOf managerKey k tasks /\ g <> []
                /\ exists t, In t tasks /\ managerKey t = k.
Proof.
  intros E m Hm. pose proof (calculateManagerMetrics_spec tasks) as H.
  rewrite E in H. destruct H as [_ (o & HG & Hperm)].
  apply (Permutation_in _ Hperm) in Hm. apply in_map_iff in Hm.
  destruct Hm as ([k g] & Hmk & Hin). subst m.
  exists k, g. split; [reflexivity |].
  destruct (proj1 (Grouped_entry managerKey tasks o k g HG) Hin) as [Hg Hne].
  split; [exact Hg |]. split; [exact Hne |].
  apply (groupOf_nonempty managerKey). now rewrite <- Hg.
Qed.

Lemma key_not_empty (s d : string) : d <> "" -> or_else s d <> "".
Proof.
  intro Hd. destruct (string_dec s "") as [-> | Hs].
  - now rewrite or_else_empty.
  - now rewrite or_else_nonempty.
Qed.

Lemma manager_records_names (tasks : list Task.t) (ms : list ManagerMetrics.t) :
  calculateManagerMetrics tasks = Ok ms ->
  forall m, In m ms ->
    ManagerMetrics.manager m <> ""
    /\ ManagerMetrics.totalTasks m
       = len (groupOf managerKey (ManagerMetrics.manager m) tasks).
Proof.
  intros E m Hm.
  destruct (manager_records tasks ms E m Hm) as (k & g & -> & Hg & _ & t & _ & Hk).
  rewrite managerMetricsOf_manager, managerMetricsOf_totalTasks. cbn [fst snd].
  split; [| now rewrite Hg].
  rewrite <- Hk. unfold managerKey. apply key_not_empty. discriminate.
Qed.

(** X10: whenever [calculateManagerMetrics] returns, its records partition
    the tasks: their managers are distinct and never empty, every task
    belongs to the record of its key (its functional manager, or
    "Unassigned" when that is empty), each record counts exactly the tasks
    with its key, at least one, and the counts add up to the number of
    tasks. *)
Theorem manager_records_partition_tasks
  (tasks : list Task.t) (ms : list ManagerMetrics.t) :
  calculateManagerMetrics tasks = Ok ms ->
  NoDup (map ManagerMetrics.manager ms)
  /\ (forall t, In t tasks ->
        In (managerKey t) (map ManagerMetrics.manager ms)
        /\ (Task.functionalManager t = "" -> managerKey t = "Unassigned")
        /\ (Task.functionalManager t <> "" -> managerKey t = Task.functionalManager t))
  /\ (forall m, In m ms ->
        ManagerMetrics.manager m <> ""
        /\ groupOf managerKey (ManagerMetrics.manager m) tasks <> []
        /\ ManagerMetrics.totalTasks m
           = len (groupOf managerKey (ManagerMetrics.manager m) tasks))
  /\ total ManagerMetrics.totalTasks ms == len tasks.
Proof.
  intro E. pose proof (calculateManagerMetrics_spec tasks) as H.
  rewrite E in H. destruct H as [Hp _].
  destruct (manager_metrics_partition tasks Hp) as (ms' & E' & Hnd & Hin & Hgr & Hsum).
  assert (ms' = ms) by congruence. subst ms'.
  split; [exact Hnd |]. split; [exact Hin |]. split; [| exact Hsum].
  intros m Hm. split; [| now apply Hgr].
  destruct (manager_records tasks ms E m Hm) as (k & g & -> & _ & _ & t & _ & <-).
  rewrite managerMetricsOf_manager. cbn [fst]. unfold managerKey.
  apply key_not_empty. discriminate.
Qed.

Lemma manager_records_partition_tasks_example :
  exists ms, calculateManagerMetrics Cases.threeManagers = Ok ms
  /\ map ManagerMetrics.manager ms = ["Unassigned"; "Ana"; "Ben"]
  /\ NoDup (map ManagerMetrics.manager ms)
  /\ total ManagerMetrics.totalTasks ms == len Cases.threeManagers.
Proof.
  eexists. split; [reflexivity |]. split; [reflexivity |].
  pose proof (manager_records_partition_tasks Cases.threeManagers _ eq_refl)
    as (Hnd & _ & _ & Hsum).
  split; [exact Hnd | exact Hsum].
Defined.



End ManagerRecords.

Section ManagerCounts.


Lemma inject_nat_le (a b : nat) : (a <= b)%nat -> inject_Z (Z.of_nat a) <= inject_Z (Z.of_nat b).
Proof. intro H. rewrite <- Zle_Qle. lia. Qed.



End ManagerCounts.

(** ** The project records *)

Section ProjectRecords.

Lemma project_records (tasks : list Task.t) (ms : list ProjectMetrics.t) :
  calculateProjectMetrics tasks = Ok ms ->
  NoDup (map ProjectMetrics.projectName ms)
  /\ forall m, In m ms ->
       exists k g, m = projectMetricsOf (k, g)
                   /\ g = groupOf projectKey k tasks /\ g <> []
                   /\ exists t, In t tasks /\ projectKey t = k.
Proof.
  intros E. pose proof (calculateProjectMetrics_spec tasks) as H.
  rewrite E in H. destruct H as [_ (o & HG & Hperm)]. split.
  - assert (Hn : Permutation (map ProjectMetrics.projectName ms) (map fst o)).
    { rewrite Hperm, map_map. erewrite map_ext; [reflexivity |].
      intro e. apply projectMetricsOf_projectName. }
    rewrite Hn. apply HG.
  - intros m Hm. apply (Permutation_in _ Hperm) in Hm. apply in_map_iff in Hm.
    destruct Hm as ([k g] & Hmk & Hin). subst m.
    exists k, g. split; [reflexivity |].
    destruct (proj1 (Grouped_entry projectKey tasks o k g HG) Hin) as [Hg Hne].
    split; [exact Hg |]. split; [exact Hne |].
    apply (groupOf_nonempty projectKey). now rewrite <- Hg.
Qed.

(** X13: whenever [calculateProjectMetrics] returns, its records have
    distinct, non-empty project names; each stands for the non-empty group of
    tasks with its key (the project name, or "Unnamed Project" when that is
    empty), whose size is its [totalTasks]; and its completed percentage,
    critical-path percentage, forecast accuracy and generic-resource
    percentage are percentages. *)
Theorem project_records_partition_tasks
  (tasks : list Task.t) (ms : list ProjectMetrics.t) :
  calculateProjectMetrics tasks = Ok ms ->
  NoDup (map ProjectMetrics.projectName ms)
  /\ (forall t, In t tasks -> In (projectKey t) (map ProjectMetrics.projectName ms))
  /\ (forall m, In m ms ->
        let group := groupOf projectKey (ProjectMetrics.projectName m) tasks in
        ProjectMetrics.projectName m <> ""
        /\ group <> []
        /\ ProjectMetrics.totalTasks m = len group
        /\ isPercentage (ProjectMetrics.completedPct m)
        /\ isPercentage (ProjectMetrics.criticalPathTasksPct m)
        /\ isPercentage (ProjectMetrics.forecastAccuracy m)
        /\ isPercentage (ProjectMetrics.genericResourcePct m)).
Proof.
  intro E. destruct (project_records tasks ms E) as [Hnd Hrec].
  split; [exact Hnd |]. split.
  - intros t Ht. pose proof (calculateProjectMetrics_spec tasks) as H.
    rewrite E in H. destruct H as [_ (o & HG & Hperm)].
    assert (Hn : Permutation (map ProjectMetrics.projectName ms) (map fst o)).
    { rewrite Hperm, map_map. erewrite map_ext; [reflexivity |].
      intro e. apply projectMetricsOf_projectName. }
    rewrite Hn. apply (Grouped_keys projectKey tasks o _ HG). now exists t.
  - intros m Hm. destruct (Hrec m Hm) as (k & g & -> & Hg & Hne & t & _ & Hk).
    cbn [projectMetricsOf ProjectMetrics.set_topRisks ProjectMetrics.set_predictedRAG
         ProjectMetrics.projectName ProjectMetrics.totalTasks ProjectMetrics.completedPct
         ProjectMetrics.criticalPathTasksPct ProjectMetrics.forecastAccuracy
         ProjectMetrics.genericResourcePct]. cbv zeta.
    rewrite <- Hg.
    split; [rewrite <- Hk; unfold projectKey; apply key_not_empty; discriminate |].
    split; [exact Hne |]. split; [reflexivity |].
    split; [now apply share_is_percentage |].
    split; [now apply share_is_percentage |].
    split; [apply forecast_accuracy_bounds | apply generic_bounds].
Qed.

Lemma project_records_partition_tasks_example :
  exists ms, calculateProjectMetrics Cases.threeManagers = Ok ms
  /\ map ProjectMetrics.projectName ms = ["Apollo"; "Gemini"]
  /\ NoDup (map ProjectMetrics.projectName ms).
Proof.
  eexists. split; [reflexivity |]. split; [reflexivity |].
  exact (proj1 (project_records_partition_tasks Cases.threeManagers _ eq_refl)).
Defined.



End ProjectRecords.

(** ** Counting projects *)

Section ProjectCount.

Lemma length_without (x : string) (l : list string) :
  NoDup l -> In x l ->
  S (length (filter (fun y => negb (y =? x)%string) l)) = length l.
Proof.
  induction 1 as [| y r Hnotin Hnd IH]; intros Hin; [destruct Hin |].
  cbn [filter length]. destruct (string_dec y x) as [-> | Hne].
  - rewrite String.eqb_refl. cbn [negb]. f_equal.
    f_equal. apply forallb_filter_id. apply forallb_forall.
    intros z Hz. apply negb_true_iff, String.eqb_neq. congruence.
  - apply String.eqb_neq in Hne as Hb. rewrite Hb. cbn [negb length]. f_equal.
    apply IH. destruct Hin as [-> | Hin]; [congruence | exact Hin].
Qed.

Lemma same_elements_same_length (l l' : list string) :
  NoDup l -> NoDup l' -> (forall x, In x l <-> In x l') -> length l = length l'.
Proof.
  intros H H' Hiff. apply Permutation_length. now apply NoDup_Permutation.
Qed.

Lemma length_uniq_le (l : list string) : (length (uniq l) <= length l)%nat.
Proof.
  induction l as [| x r IH]; cbn [uniq length]; [lia |].
  pose proof (filter_length_le (fun y => negb (y =? x)%string) (uniq r)). lia.
Qed.

(** The keys of the project groups against the distinct raw names. *)
Lemma project_keys_count (tasks : list Task.t) (o : Dict (list Task.t)) :
  Grouped projectKey tasks o ->
  let names := uniq (map Task.projectName tasks) in
  (In "" names /\ In "Unnamed Project" names -> S (length o) = length names)
  /\ (~ (In "" names /\ In "Unnamed Project" names) -> length o = length names).
Proof.
  intros HG names.
  assert (Hnames : forall n, In n names <-> exists t, In t tasks /\ Task.projectName t = n).
  { intro n. unfold names. rewrite uniq_in, in_map_iff.
    split; intros (t & H1 & H2); exists t; tauto. }
  assert (Hkeys : forall k, In k (map fst o)
                            <-> exists n, In n names /\ or_else n "Unnamed Project" = k).
  { intro k. rewrite (Grouped_keys projectKey tasks o k HG). split.
    - intros (t & Ht & <-). exists (Task.projectName t). split; [| reflexivity].
      apply Hnames. now exists t.
    - intros (n & Hn & <-). apply Hnames in Hn as (t & Ht & <-). now exists t. }
  assert (Hnd : NoDup (map fst o)) by apply HG.
  assert (Hndn : NoDup names) by apply uniq_NoDup.
  rewrite <- (length_map fst o).
  set (named := filter (fun y => negb (y =? "")%string) names).
  assert (Hnamed : forall n, In n named <-> In n names /\ n <> "").
  { intro n. unfold named. rewrite filter_In, negb_true_iff, String.eqb_neq. tauto. }
  split.
  - intros [Hempty Hunnamed].
    rewrite <- (length_without "" names Hndn Hempty). fold named. f_equal.
    apply same_elements_same_length; [exact Hnd | now apply NoDup_filter |].
    intro k. rewrite Hkeys, Hnamed. split.
    + intros (n & Hn & <-). destruct (string_dec n "") as [-> | Hne].
      * rewrite or_else_empty. split; [exact Hunnamed | discriminate].
      * rewrite or_else_nonempty by exact Hne. now split.
    + intros [Hk Hne]. exists k. split; [exact Hk | now apply or_else_nonempty].
  - intro Hnot. destruct (in_dec string_dec "" names) as [Hempty | Hnone].
    + assert (Hun : ~ In "Unnamed Project" names) by tauto.
      rewrite <- (length_without "" names Hndn Hempty). fold named.
      change (S (length named)) with (length ("Unnamed Project" :: named)).
      apply same_elements_same_length; [exact Hnd | |].
      * constructor; [rewrite Hnamed; tauto | now apply NoDup_filter].
      * intro k. rewrite Hkeys. cbn [In]. rewrite Hnamed. split.
        -- intros (n & Hn & <-). destruct (string_dec n "") as [-> | Hne].
           ++ left. now rewrite or_else_empty.
           ++ right. rewrite or_else_nonempty by exact Hne. now split.
        -- intros [<- | [Hk Hne]].
           ++ exists "". split; [exact Hempty | reflexivity].
           ++ exists k. split; [exact Hk | now apply or_else_nonempty].
    + apply same_elements_same_length; [exact Hnd | exact Hndn |].
      intro k. rewrite Hkeys. split.
      * intros (n & Hn & <-). rewrite or_else_nonempty; [exact Hn | congruence].
      * intro Hk. exists k. split; [exact Hk |]. apply or_else_nonempty. congruence.
Qed.

(** X15: when both return, the portfolio's [totalProjects] counts the
    distinct raw project names, while [calculateProjectMetrics] files the
    empty name under "Unnamed Project": the portfolio counts one project
    more than there are project records when both the empty name and
    "Unnamed Project" occur among the tasks, and exactly as many otherwise. *)
Theorem portfolio_counts_one_more_project_than_records
  (tasks : list Task.t) (pm : PortfolioMetrics.t) (groups : list ProjectMetrics.t) :
  calculatePortfolioMetrics tasks = Ok pm ->
  calculateProjectMetrics tasks = Ok groups ->
  let names := map Task.projectName tasks in
  (In "" names /\ In "Unnamed Project" names ->
   PortfolioMetrics.totalProjects pm == len groups + 1)
  /\ (~ (In "" names /\ In "Unnamed Project" names) ->
      PortfolioMetrics.totalProjects pm == len groups).
Proof.
  intros Epm Egr. cbv zeta.
  pose proof (calculatePortfolioMetrics_spec tasks) as Hpm. rewrite Epm in Hpm.
  destruct Hpm as (_ & -> & _).
  pose proof (calculateProjectMetrics_spec tasks) as Hgr. rewrite Egr in Hgr.
  destruct Hgr as [_ (o & HG & Hperm)].
  assert (Hlen : length groups = length o).
  { rewrite (Permutation_length Hperm). apply length_map. }
  destruct (project_keys_count tasks o HG) as [Hboth Hnot].
  unfold len. rewrite Hlen. split.
  - intros [H1 H2]. rewrite <- Hboth by (split; apply uniq_in; assumption).
    rewrite Nat2Z.inj_succ, <- Z.add_1_r, inject_Z_plus. reflexivity.
  - intro H. rewrite Hnot; [reflexivity |].
    intros [H1 H2]. apply H. split; apply uniq_in; assumption.
Qed.

Lemma portfolio_counts_one_more_project_than_records_example :
  exists pm groups,
    calculatePortfolioMetrics Inputs.unnamedTwice = Ok pm
    /\ calculateProjectMetrics Inputs.unnamedTwice = Ok groups
    /\ PortfolioMetrics.totalProjects pm == len groups + 1.
Proof.
  do 2 eexists. split; [reflexivity |]. split; [reflexivity |].
  apply (portfolio_counts_one_more_project_than_records Inputs.unnamedTwice _ _
           eq_refl eq_refl).
  split; cbn; tauto.
Defined.

(** X16: whenever [calculatePortfolioMetrics] returns, its totals agree with
    one another: [totalTasks] is the number of tasks, the Red, Amber and
    Green counts add up to it, so do the [totalTasks] of the manager records,
    which are those of [calculateManagerMetrics]; the three percentages are
    percentages; and [totalProjects] is at most [totalTasks], and at least 1
    unless there is no task. *)
Theorem portfolio_totals_are_consistent (tasks : list Task.t) (pm : PortfolioMetrics.t) :
  calculatePortfolioMetrics tasks = Ok pm ->
  let rag := PortfolioMetrics.ragDistribution pm in
  PortfolioMetrics.totalTasks pm = len tasks
  /\ RagDistribution.Red rag + RagDistribution.Amber rag + RagDistribution.Green rag
     == PortfolioMetrics.totalTasks pm
  /\ calculateManagerMetrics tasks = Ok (PortfolioMetrics.managerMetrics pm)
  /\ total ManagerMetrics.totalTasks (PortfolioMetrics.managerMetrics pm)
     == PortfolioMetrics.totalTasks pm
  /\ isPercentage (PortfolioMetrics.avgForecastAccuracy pm)
  /\ isPercentage (PortfolioMetrics.genericResourcePct pm)
  /\ isPercentage (PortfolioMetrics.criticalPathTasksPct pm)
  /\ PortfolioMetrics.totalProjects pm <= PortfolioMetrics.totalTasks pm
  /\ (tasks <> [] -> 1 <= PortfolioMetrics.totalProjects pm).
Proof.
  intros E rag. pose proof (calculatePortfolioMetrics_spec tasks) as H.
  rewrite E in H. destruct H as (Hms & Hproj & Htot & Hfa & Hgp & Hcp & Hrag).
  unfold rag. rewrite Hrag, Hproj, Htot, Hfa, Hgp, Hcp.
  cbn [RagDistribution.Red RagDistribution.Amber RagDistribution.Green].
  split; [reflexivity |]. split; [apply rag_counts_add_up |]. split; [exact Hms |].
  split.
  { pose proof (calculateManagerMetrics_spec tasks) as Hs. rewrite Hms in Hs.
    destruct Hs as [Hp _].
    destruct (manager_metrics_partition tasks Hp) as (ms' & E' & _ & _ & _ & Hsum).
    assert (ms' = PortfolioMetrics.managerMetrics pm) by congruence. now subst ms'. }
  split; [apply forecast_accuracy_bounds |]. split; [apply generic_bounds |].
  split.
  { destruct tasks as [| t0 r]; [apply zero_is_percentage |].
    cbn [length Nat.eqb]. apply share_is_percentage. discriminate. }
  split.
  - apply inject_nat_le. rewrite <- (length_map Task.projectName tasks).
    apply length_uniq_le.
  - intro Hne. destruct tasks as [| t0 r]; [congruence |].
    unfold len. cbn [map uniq length]. change 1 with (inject_Z 1).
    rewrite <- Zle_Qle. lia.
Qed.

Lemma portfolio_totals_are_consistent_example :
  exists pm, calculatePortfolioMetrics Cases.threeManagers = Ok pm
  /\ PortfolioMetrics.totalTasks pm = 4
  /\ PortfolioMetrics.totalProjects pm <= PortfolioMetrics.totalTasks pm.
Proof.
  eexists. split; [reflexivity |]. split; [reflexivity |].
  pose proof (portfolio_totals_are_consistent Cases.threeManagers _ eq_refl)
    as (_ & _ & _ & _ & _ & _ & _ & H & _).
  exact H.
Defined.

End ProjectCount.

(** ** The other rules of the detector *)

Section DetectorRules.

Variable tasks : list Task.t.
Variable managerMetrics : list ManagerMetrics.t.

Ltac in_cases :=
  repeat match goal with
         | H : _ \/ _ |- _ => destruct H as [H | H]
         | H : False |- _ => destruct H
         end.

Lemma optimism_found (p : BehaviouralPattern.t) :
  In p (patternsFound tasks managerMetrics) ->
  BehaviouralPattern.patternType p = chronic_optimism ->
  let optimists := filter isOptimist managerMetrics in
  optimists <> []
  /\ BehaviouralPattern.severity p
     = (if gtb (len optimists) (len managerMetrics * 0.5) then high else medium)
  /\ BehaviouralPattern.affectedManagers p = map ManagerMetrics.manager optimists.
Proof.
  unfold patternsFound. cbv zeta.
  rewrite (len_gtb_0 (filter isOptimist managerMetrics)).
  destruct (filter isOptimist managerMetrics) as [| h hs] eqn:Eh;
    destruct (gtb (len (filter isGenericAbuser managerMetrics)) 0);
    destruct (gtb (len (filter isVolatile tasks)) (len tasks * 0.2));
    destruct (gtb (len (filter (isHoarder tasks) managerMetrics)) 0);
    cbn [length Nat.eqb negb app In];
    intros Hin Hty; in_cases; subst p; try discriminate Hty;
    (split; [discriminate | split; reflexivity]).
Qed.

Lemma type_reported (ty : PatternType) :
  In ty (map BehaviouralPattern.patternType (patternsFound tasks managerMetrics)) ->
  exists p, In p (patternsFound tasks managerMetrics)
            /\ BehaviouralPattern.patternType p = ty.
Proof.
  rewrite in_map_iff. intros (p & Hty & Hin). now exists p.
Qed.

Lemma optimism_reported :
  filter isOptimist managerMetrics <> [] ->
  exists p, In p (patternsFound tasks managerMetrics)
            /\ BehaviouralPattern.patternType p = chronic_optimism.
Proof.
  intro Hne. apply type_reported. rewrite patternsFound_types.
  rewrite (len_gtb_0 (filter isOptimist managerMetrics)).
  destruct (filter isOptimist managerMetrics); [congruence |].
  cbn [length Nat.eqb negb]. apply in_or_app. left. now left.
Qed.

Lemma generic_found (p : BehaviouralPattern.t) :
  In p (patternsFound tasks managerMetrics) ->
  BehaviouralPattern.patternType p = generic_resource_overuse ->
  let abusers := filter isGenericAbuser managerMetrics in
  abusers <> []
  /\ BehaviouralPattern.severity p
     = (if gtb (len abusers) (len managerMetrics * 0.3) then high else medium)
  /\ BehaviouralPattern.affectedManagers p = map ManagerMetrics.manager abusers.
Proof.
  unfold patternsFound. cbv zeta.
  rewrite (len_gtb_0 (filter isGenericAbuser managerMetrics)).
  destruct (gtb (len (filter isOptimist managerMetrics)) 0);
    destruct (filter isGenericAbuser managerMetrics) as [| h hs] eqn:Eh;
    destruct (gtb (len (filter isVolatile tasks)) (len tasks * 0.2));
    destruct (gtb (len (filter (isHoarder tasks) managerMetrics)) 0);
    cbn [length Nat.eqb negb app In];
    intros Hin Hty; in_cases; subst p; try discriminate Hty;
    (split; [discriminate | split; reflexivity]).
Qed.

Lemma generic_reported :
  filter isGenericAbuser managerMetrics <> [] ->
  exists p, In p (patternsFound tasks managerMetrics)
            /\ BehaviouralPattern.patternType p = generic_resource_overuse.
Proof.
  intro Hne. apply type_reported. rewrite patternsFound_types.
  rewrite (len_gtb_0 (filter isGenericAbuser managerMetrics)).
  destruct (filter isGenericAbuser managerMetrics); [congruence |].
  cbn [length Nat.eqb negb]. apply in_or_app. right. apply in_or_app. left. now left.
Qed.

Lemma instability_found (p : BehaviouralPattern.t) :
  In p (patternsFound tasks managerMetrics) ->
  BehaviouralPattern.patternType p = critical_path_instability ->
  let highVolatility := len (filter isVolatile tasks) in
  gtb highVolatility (len tasks * 0.2) = true
  /\ BehaviouralPattern.severity p
     = (if gtb highVolatility (len tasks * 0.3) then high else medium)
  /\ BehaviouralPattern.affectedManagers p
     = uniq (map Task.functionalManager (filter isVolatile tasks)).
Proof.
  unfold patternsFound. cbv zeta.
  destruct (gtb (len (filter isOptimist managerMetrics)) 0);
    destruct (gtb (len (filter isGenericAbuser managerMetrics)) 0);
    destruct (gtb (len (filter isVolatile tasks)) (len tasks * 0.2));
    destruct (gtb (len (filter (isHoarder tasks) managerMetrics)) 0);
    cbn [app In];
    intros Hin Hty; in_cases; subst p; try discriminate Hty;
    (split; [reflexivity | split; reflexivity]).
Qed.

Lemma instability_reported :
  gtb (len (filter isVolatile tasks)) (len tasks * 0.2) = true ->
  exists p, In p (patternsFound tasks managerMetrics)
            /\ BehaviouralPattern.patternType p = critical_path_instability.
Proof.
  intro Hb. apply type_reported. rewrite patternsFound_types, Hb.
  apply in_or_app. right. apply in_or_app. right. apply in_or_app. left. now left.
Qed.

End DetectorRules.

Section DetectorTheorems.

Variable tasks : list Task.t.
Variable managerMetrics : list ManagerMetrics.t.

Lemma isOptimist_optimistic (m : ManagerMetrics.t) : isOptimist m = true <-> optimistic m.
Proof.
  unfold isOptimist, optimistic. rewrite andb_true_iff, gtb_spec, ltb_spec. tauto.
Qed.

Lemma isGenericAbuser_overuses (m : ManagerMetrics.t) :
  isGenericAbuser m = true <-> overusesGeneric m.
Proof. unfold isGenericAbuser, overusesGeneric. apply gtb_spec. Qed.

Lemma isVolatile_volatile (t : Task.t) : isVolatile t = true <-> volatile t.
Proof. unfold isVolatile, volatile. apply gtb_spec. Qed.

Lemma nonempty_filter {A : Type} (f : A -> bool) (l : list A) :
  filter f l <> [] <-> exists x, In x l /\ f x = true.
Proof.
  split.
  - destruct (filter f l) as [| x r] eqn:E; [congruence |].
    intros _. exists x. apply filter_In. rewrite E. now left.
  - intros (x & Hx) E. apply filter_In in Hx. rewrite E in Hx. exact Hx.
Qed.

(** X17: the detector reports chronic optimism exactly when some manager
    has an average duration variance above 15 and a forecast accuracy below
    60; the pattern lists exactly those managers, in the order of the input,
    with severity high when they are more than half of all managers and
    medium otherwise. *)
Theorem chronic_optimism_rule :
  let patterns := detectBehaviouralPatterns tasks managerMetrics in
  let optimists := filter isOptimist managerMetrics in
  (forall m, In m optimists <-> In m managerMetrics /\ optimistic m)
  /\ ((exists p, In p patterns /\ BehaviouralPattern.patternType p = chronic_optimism)
      <-> (exists m, In m managerMetrics /\ optimistic m))
  /\ (forall p, In p patterns ->
        BehaviouralPattern.patternType p = chronic_optimism ->
        BehaviouralPattern.affectedManagers p = map ManagerMetrics.manager optimists
        /\ (len managerMetrics * 0.5 < len optimists ->
            BehaviouralPattern.severity p = high)
        /\ (len optimists <= len managerMetrics * 0.5 ->
            BehaviouralPattern.severity p = medium)).
Proof.
  intros patterns optimists.
  assert (Hmem : forall m, In m optimists <-> In m managerMetrics /\ optimistic m).
  { intro m. unfold optimists. rewrite filter_In, isOptimist_optimistic. tauto. }
  split; [exact Hmem |]. split.
  - split.
    + intros (p & Hin & Hty). apply sort_in in Hin.
      destruct (optimism_found tasks managerMetrics p Hin Hty) as [Hne _].
      apply nonempty_filter in Hne as (m & Hm & Ho).
      exists m. split; [exact Hm | now apply isOptimist_optimistic].
    + intros (m & Hm & Ho).
      destruct (optimism_reported tasks managerMetrics) as (p & Hin & Hty).
      * apply nonempty_filter. exists m. split; [exact Hm | now apply isOptimist_optimistic].
      * exists p. split; [apply sort_in; exact Hin | exact Hty].
  - intros p Hin Hty. apply sort_in in Hin.
    destruct (optimism_found tasks managerMetrics p Hin Hty) as (_ & Hsev & Haff).
    fold optimists in Hsev, Haff.
    split; [exact Haff |]. rewrite Hsev. split; intro H.
    + apply gtb_spec in H. now rewrite H.
    + apply gtb_false in H. now rewrite H.
Qed.

(** X18: the detector reports generic-resource overuse exactly when some
    manager has a generic-resource percentage above 70; the pattern lists
    exactly those managers, in the order of the input, with severity high
    when they are more than 30% of all managers and medium otherwise. *)
Theorem generic_overuse_rule :
  let patterns := detectBehaviouralPatterns tasks managerMetrics in
  let abusers := filter isGenericAbuser managerMetrics in
  (forall m, In m abusers <-> In m managerMetrics /\ overusesGeneric m)
  /\ ((exists p, In p patterns
                 /\ BehaviouralPattern.patternType p = generic_resource_overuse)
      <-> (exists m, In m managerMetrics /\ overusesGeneric m))
  /\ (forall p, In p patterns ->
        BehaviouralPattern.patternType p = generic_resource_overuse ->
        BehaviouralPattern.affectedManagers p = map ManagerMetrics.manager abusers
        /\ (len managerMetrics * 0.3 < len abusers ->
            BehaviouralPattern.severity p = high)
        /\ (len abusers <= len managerMetrics * 0.3 ->
            BehaviouralPattern.severity p = medium)).
Proof.
  intros patterns abusers.
  assert (Hmem : forall m, In m abusers <-> In m managerMetrics /\ overusesGeneric m).
  { intro m. unfold abusers. rewrite filter_In, isGenericAbuser_overuses. tauto. }
  split; [exact Hmem |]. split.
  - split.
    + intros (p & Hin & Hty). apply sort_in in Hin.
      destruct (generic_found tasks managerMetrics p Hin Hty) as [Hne _].
      apply nonempty_filter in Hne as (m & Hm & Ho).
      exists m. split; [exact Hm | now apply isGenericAbuser_overuses].
    + intros (m & Hm & Ho).
      destruct (generic_reported tasks managerMetrics) as (p & Hin & Hty).
      * apply nonempty_filter. exists m.
        split; [exact Hm | now apply isGenericAbuser_overuses].
      * exists p. split; [apply sort_in; exact Hin | exact Hty].
  - intros p Hin Hty. apply sort_in in Hin.
    destruct (generic_found tasks managerMetrics p Hin Hty) as (_ & Hsev & Haff).
    fold abusers in Hsev, Haff.
    split; [exact Haff |]. rewrite Hsev. split; intro H.
    + apply gtb_spec in H. now rewrite H.
    + apply gtb_false in H. now rewrite H.
Qed.

(** X19: the detector reports critical-path instability exactly when the
    tasks with volatility above 5 are more than 20% of all tasks (so never
    for an empty task list); the pattern then names each functional manager
    of such a task once, as the task has it (an empty manager stays empty),
    with severity high when those tasks are more than 30% of all tasks and
    medium otherwise.  The manager metrics play no part. *)
Theorem critical_path_instability_rule :
  let patterns := detectBehaviouralPatterns tasks managerMetrics in
  let volatileTasks := filter isVolatile tasks in
  (forall t, In t volatileTasks <-> In t tasks /\ volatile t)
  /\ ((exists p, In p patterns
                 /\ BehaviouralPattern.patternType p = critical_path_instability)
      <-> len tasks * 0.2 < len volatileTasks)
  /\ (forall p, In p patterns ->
        BehaviouralPattern.patternType p = critical_path_instability ->
        tasks <> []
        /\ NoDup (BehaviouralPattern.affectedManagers p)
        /\ (forall name, In name (BehaviouralPattern.affectedManagers p)
                         <-> exists t, In t tasks /\ volatile t
                                       /\ Task.functionalManager t = name)
        /\ (len tasks * 0.3 < len volatileTasks -> BehaviouralPattern.severity p = high)
        /\ (len volatileTasks <= len tasks * 0.3 ->
            BehaviouralPattern.severity p = medium)).
Proof.
  intros patterns volatileTasks.
  assert (Hmem : forall t, In t volatileTasks <-> In t tasks /\ volatile t).
  { intro t. unfold volatileTasks. rewrite filter_In, isVolatile_volatile. tauto. }
  split; [exact Hmem |]. split.
  - rewrite <- gtb_spec. split.
    + intros (p & Hin & Hty). apply sort_in in Hin.
      now destruct (instability_found tasks managerMetrics p Hin Hty) as [Hb _].
    + intro Hb. destruct (instability_reported tasks managerMetrics Hb) as (p & Hin & Hty).
      exists p. split; [apply sort_in; exact Hin | exact Hty].
  - intros p Hin Hty. apply sort_in in Hin.
    destruct (instability_found tasks managerMetrics p Hin Hty) as (Hb & Hsev & Haff).
    fold volatileTasks in Hb, Hsev, Haff. split.
    { intros ->. revert Hb. unfold volatileTasks. cbn. discriminate. }
    rewrite Haff. split; [apply uniq_NoDup |]. split.
    + intro name. rewrite uniq_in, in_map_iff. split.
      * intros (t & Hn & Ht). apply Hmem in Ht. exists t. tauto.
      * intros (t & Ht & Hv & Hn). exists t. split; [exact Hn |]. now apply Hmem.
    + rewrite Hsev. split; intro H.
      * apply gtb_spec in H. now rewrite H.
      * apply gtb_false in H. now rewrite H.
Qed.


End DetectorTheorems.

(** ** The detector on the manager records of the same tasks *)

Section Pipeline.

Lemma named_bucket_tasks (tasks : list Task.t) (k : string) :
  k <> "" -> k <> "Unassigned" ->
  filter (managedBy k) tasks = groupOf managerKey k tasks.
Proof.
  intros Hk Hu. apply filter_ext. intro t. unfold managedBy, managerKey.
  destruct (string_dec (Task.functionalManager t) "") as [E | E].
  - rewrite E, or_else_empty.
    transitivity false; [| symmetry]; apply String.eqb_neq; congruence.
  - now rewrite or_else_nonempty.
Qed.

(** X21: on the records that [calculateManagerMetrics] returns for the same
    tasks, the resource-hoarding test of the detector looks at a record's own
    group whenever the record is not the "Unassigned" one: the tasks it
    selects by name are the group, and their number is the record's
    [totalTasks].  For the "Unassigned" record it selects only the tasks
    literally called "Unassigned": when there is none, the record hoards
    exactly when it has more than 5 tasks, whatever their utilisation. *)
Theorem detector_matches_named_buckets
  (tasks : list Task.t) (ms : list ManagerMetrics.t) :
  calculateManagerMetrics tasks = Ok ms ->
  forall m, In m ms ->
    let selected := filter (managedBy (ManagerMetrics.manager m)) tasks in
    let group := groupOf managerKey (ManagerMetrics.manager m) tasks in
    (ManagerMetrics.manager m <> "Unassigned" ->
     selected = group /\ ManagerMetrics.totalTasks m = len selected)
    /\ (ManagerMetrics.manager m = "Unassigned" ->
        (forall t, In t tasks -> Task.functionalManager t <> "Unassigned") ->
        selected = []
        /\ (isHoarder tasks m = true <-> 5 < ManagerMetrics.totalTasks m)).
Proof.
  intros E m Hm. cbv zeta.
  destruct (manager_records_names tasks ms E m Hm) as (Hne & Htot).
  split.
  - intro Hu. rewrite named_bucket_tasks by assumption. split; [reflexivity | exact Htot].
  - intros Hu Hnone.
    assert (Hsel : filter (managedBy (ManagerMetrics.manager m)) tasks = []).
    { apply filter_none. intros t Ht. unfold managedBy. rewrite Hu.
      apply String.eqb_neq. now apply Hnone. }
    split; [exact Hsel |].
    unfold isHoarder. cbv zeta. rewrite Hsel.
    change (calculateResourceUtilisation [] None) with 0.
    rewrite andb_true_iff, gtb_spec. split; [tauto | intro H; split; [reflexivity | exact H]].
Qed.

Lemma detector_matches_named_buckets_example :
  exists ms m, calculateManagerMetrics Cases.threeManagers = Ok ms
  /\ In m ms /\ ManagerMetrics.manager m = "Ana"
  /\ filter (managedBy "Ana") Cases.threeManagers
     = groupOf managerKey "Ana" Cases.threeManagers.
Proof.
  eexists. eexists. split; [reflexivity |].
  assert (Hin : In (managerMetricsOf ("Ana", groupOf managerKey "Ana" Cases.threeManagers))
                   (sort byScoreDescending
                      (map managerMetricsOf
                           [("Ana", groupOf managerKey "Ana" Cases.threeManagers);
                            ("Unassigned",
                             groupOf managerKey "Unassigned" Cases.threeManagers);
                            ("Ben", groupOf managerKey "Ben" Cases.threeManagers)]))).
  { apply sort_in. now left. }
  split; [exact Hin |]. split; [reflexivity |].
  apply (detector_matches_named_buckets Cases.threeManagers _ eq_refl _ Hin).
  discriminate.
Defined.

End Pipeline.

(** ** Insights *)

Section SortedInputs.

Context {A : Type}.
Variable cmp : A -> A -> Q.
Variable rank : A -> Q.
Hypothesis cmp_rank : forall a b, cmp a b = rank b - rank a.

(** Sorting a list that is already in order returns it unchanged. *)
Lemma sort_of_sorted (l : list A) :
  StronglySorted (fun a b => rank b <= rank a) l -> sort cmp l = l.
Proof.
  induction 1 as [| x r Hs IH Hall]; [reflexivity |].
  cbn [sort]. rewrite IH. destruct r as [| y r']; [reflexivity |].
  cbn [sort_insert].
  assert (Hxy : leb (cmp x y) 0 = true).
  { apply leb_spec. rewrite cmp_rank. inversion Hall; subst. lra. }
  now rewrite Hxy.
Qed.

Lemma sorted_app (l l' : list A) :
  StronglySorted (fun a b => rank b <= rank a) l ->
  StronglySorted (fun a b => rank b <= rank a) l' ->
  (forall a b, In a l -> In b l' -> rank b <= rank a) ->
  StronglySorted (fun a b => rank b <= rank a) (l ++ l').
Proof.
  induction 1 as [| x r Hs IH Hall]; intros Hl' Hcross; [exact Hl' |].
  cbn [app]. constructor.
  - apply IH; [exact Hl' |]. intros a b Ha Hb. apply Hcross; [now right | exact Hb].
  - apply Forall_app. split; [exact Hall |].
    apply Forall_forall. intros b Hb. apply Hcross; [now left | exact Hb].
Qed.

Lemma sorted_constant (c : Q) (l : list A) :
  (forall a, In a l -> rank a = c) -> StronglySorted (fun a b => rank b <= rank a) l.
Proof.
  induction l as [| x r IH]; intro H; constructor.
  - apply IH. intros a Ha. apply H. now right.
  - apply Forall_forall. intros b Hb.
    rewrite (H x (or_introl eq_refl)), (H b (or_intror Hb)). apply Qle_refl.
Qed.

End SortedInputs.

Section Insights.

Variable tasks : list Task.t.
Variable portfolioMetrics : PortfolioMetrics.t.

Lemma push_if {A : Type} (b : bool) (l : list A) (x : A) :
  (if b then l ++ [x] else l) = l ++ (if b then [x] else []).
Proof. destruct b; [reflexivity | now rewrite app_nil_r]. Qed.

(** The portfolio-level insights found, those about poor performers, and
    the one about top performers. *)
Lemma insightsFound_parts :
  let managers := PortfolioMetrics.managerMetrics portfolioMetrics in
  let rag := PortfolioMetrics.ragDistribution portfolioMetrics in
  exists highs lows,
    insightsFound portfolioMetrics
    = highs ++ map lowScoreInsight (filter isPoorPerformer managers) ++ lows
    /\ (forall i, In i highs -> Insight.priority i = high)
    /\ (forall i, In i lows -> Insight.priority i = low)
    /\ map Insight.id highs
       = (if ltb (PortfolioMetrics.avgForecastAccuracy portfolioMetrics) 60
          then ["portfolio-forecast-low"] else [])
         ++ (if gtb (PortfolioMetrics.genericResourcePct portfolioMetrics) 50
             then ["portfolio-generic-high"] else [])
         ++ (if redShareAbove30
                  (RagDistribution.Red rag)
                  (RagDistribution.Red rag + RagDistribution.Amber rag
                   + RagDistribution.Green rag)
             then ["portfolio-rag-red"] else [])
    /\ map Insight.id lows
       = (if gtb (len (filter isTopPerformer managers)) 0
          then ["portfolio-top-performers"] else []).
Proof.
  intros managers rag. unfold insightsFound. cbv zeta. fold managers rag.
  assert (Hpoor : forall l : list Insight.t,
             (if gtb (len (filter isPoorPerformer managers)) 0
              then l ++ map lowScoreInsight (filter isPoorPerformer managers)
              else l)
             = l ++ map lowScoreInsight (filter isPoorPerformer managers)).
  { intro l. rewrite len_gtb_0.
    destruct (filter isPoorPerformer managers); [now rewrite app_nil_r | reflexivity]. }
  rewrite Hpoor, !push_if, <- !app_assoc. cbn [app].
  match goal with
  | |- exists highs lows, ?o1 ++ ?o2 ++ ?o3 ++ ?m ++ ?o5 = _ /\ _ =>
      exists (o1 ++ o2 ++ o3), o5
  end.
  split; [now rewrite <- !app_assoc |].
  destruct (ltb (PortfolioMetrics.avgForecastAccuracy portfolioMetrics) 60);
    destruct (gtb (PortfolioMetrics.genericResourcePct portfolioMetrics) 50);
    destruct (redShareAbove30 (RagDistribution.Red rag)
                (RagDistribution.Red rag + RagDistribution.Amber rag
                 + RagDistribution.Green rag));
    destruct (gtb (len (filter isTopPerformer managers)) 0);
    cbn [app map Insight.id In];
    (split; [intros i Hi;
             repeat match goal with
                    | H : _ \/ _ |- _ => destruct H as [H | H]
                    | H : False |- _ => destruct H
                    end; subst i; reflexivity |]);
    (split; [intros i Hi;
             repeat match goal with
                    | H : _ \/ _ |- _ => destruct H as [H | H]
                    | H : False |- _ => destruct H
                    end; subst i; reflexivity |]);
    split; reflexivity.
Qed.

Lemma insightsFound_sorted :
  StronglySorted (fun a b => priorityOrder (Insight.priority b)
                             <= priorityOrder (Insight.priority a))
                 (insightsFound portfolioMetrics).
Proof.
  destruct insightsFound_parts as (highs & lows & -> & Hh & Hl & _).
  set (managers := PortfolioMetrics.managerMetrics portfolioMetrics).
  assert (Hm : forall i, In i (map lowScoreInsight (filter isPoorPerformer managers)) ->
                         Insight.priority i = medium).
  { intros i Hi. apply in_map_iff in Hi as (m & <- & _). reflexivity. }
  apply (sorted_app (fun i => priorityOrder (Insight.priority i))).
  - apply (sorted_constant _ 3). intros i Hi. now rewrite (Hh i Hi).
  - apply (sorted_app (fun i => priorityOrder (Insight.priority i))).
    + apply (sorted_constant _ 2). intros i Hi. now rewrite (Hm i Hi).
    + apply (sorted_constant _ 1). intros i Hi. now rewrite (Hl i Hi).
    + intros a b Ha Hb. rewrite (Hm a Ha), (Hl b Hb). discriminate.
  - intros a b Ha Hb. rewrite (Hh a Ha).
    apply in_app_or in Hb as [Hb | Hb]; [rewrite (Hm b Hb) | rewrite (Hl b Hb)];
      discriminate.
Qed.

Lemma generateInsights_unsorted :
  generateInsights tasks portfolioMetrics = insightsFound portfolioMetrics.
Proof.
  unfold generateInsights.
  apply (sort_of_sorted byPriorityDescending
           (fun i => priorityOrder (Insight.priority i))).
  - reflexivity.
  - apply insightsFound_sorted.
Qed.

Lemma insight_ids :
  let managers := PortfolioMetrics.managerMetrics portfolioMetrics in
  let rag := PortfolioMetrics.ragDistribution portfolioMetrics in
  map Insight.id (generateInsights tasks portfolioMetrics)
  = (if ltb (PortfolioMetrics.avgForecastAccuracy portfolioMetrics) 60
     then ["portfolio-forecast-low"] else [])
    ++ (if gtb (PortfolioMetrics.genericResourcePct portfolioMetrics) 50
        then ["portfolio-generic-high"] else [])
    ++ (if redShareAbove30
             (RagDistribution.Red rag)
             (RagDistribution.Red rag + RagDistribution.Amber rag
              + RagDistribution.Green rag)
        then ["portfolio-rag-red"] else [])
    ++ map (fun m => "manager-" ++ ManagerMetrics.manager m ++ "-low-score")%string
           (filter isPoorPerformer managers)
    ++ (if gtb (len (filter isTopPerformer managers)) 0
        then ["portfolio-top-performers"] else []).
Proof.
  cbv zeta. rewrite generateInsights_unsorted.
  destruct insightsFound_parts as (highs & lows & -> & _ & _ & Hhi & Hli).
  rewrite !map_app, Hhi, Hli, map_map, <- !app_assoc. reflexivity.
Qed.

(** X22: [generateInsights] lists its insights from the highest to the
    lowest priority, and the final sort changes nothing, because they are
    pushed in that order: the portfolio insights on forecast accuracy below
    60, generic-resource use above 50 and Red share above 30 come first, in
    this order; then one insight for each manager scoring below 40, in the
    order of the manager list; then, if some manager scores above 80, one
    more.  The task list is not looked at. *)
Theorem insights_come_out_in_push_order :
  let insights := generateInsights tasks portfolioMetrics in
  let managers := PortfolioMetrics.managerMetrics portfolioMetrics in
  let rag := PortfolioMetrics.ragDistribution portfolioMetrics in
  StronglySorted notLowerPriority insights
  /\ map Insight.id insights
     = (if ltb (PortfolioMetrics.avgForecastAccuracy portfolioMetrics) 60
        then ["portfolio-forecast-low"] else [])
       ++ (if gtb (PortfolioMetrics.genericResourcePct portfolioMetrics) 50
           then ["portfolio-generic-high"] else [])
       ++ (if redShareAbove30
                (RagDistribution.Red rag)
                (RagDistribution.Red rag + RagDistribution.Amber rag
                 + RagDistribution.Green rag)
           then ["portfolio-rag-red"] else [])
       ++ map (fun m => "manager-" ++ ManagerMetrics.manager m ++ "-low-score")%string
              (filter isPoorPerformer managers)
       ++ (if gtb (len (filter isTopPerformer managers)) 0
           then ["portfolio-top-performers"] else []).
Proof.
  cbv zeta. split; [| apply insight_ids].
  rewrite generateInsights_unsorted. apply insightsFound_sorted.
Qed.

(** X23: [generateInsights] returns no insight exactly when the forecast
    accuracy is at least 60, the generic-resource percentage at most 50, the
    Red share not above 30, and every manager scores between 40 and 80. *)
Theorem no_insight_exactly_when_all_is_within_thresholds :
  let managers := PortfolioMetrics.managerMetrics portfolioMetrics in
  let rag := PortfolioMetrics.ragDistribution portfolioMetrics in
  generateInsights tasks portfolioMetrics = []
  <-> 60 <= PortfolioMetrics.avgForecastAccuracy portfolioMetrics
      /\ PortfolioMetrics.genericResourcePct portfolioMetrics <= 50
      /\ redShareAbove30 (RagDistribution.Red rag)
                         (RagDistribution.Red rag + RagDistribution.Amber rag
                          + RagDistribution.Green rag) = false
      /\ (forall m, In m managers ->
            40 <= ManagerMetrics.performanceScore m
            /\ ManagerMetrics.performanceScore m <= 80).
Proof.
  intros managers rag.
  assert (Hmap : generateInsights tasks portfolioMetrics = []
                 <-> map Insight.id (generateInsights tasks portfolioMetrics) = []).
  { split; [intros ->; reflexivity | apply map_eq_nil]. }
  rewrite Hmap, insight_ids. fold managers rag.
  rewrite <- (ltb_false (PortfolioMetrics.avgForecastAccuracy portfolioMetrics) 60).
  rewrite <- (gtb_false (PortfolioMetrics.genericResourcePct portfolioMetrics) 50).
  assert (Hpoor : filter isPoorPerformer managers = []
                  <-> forall m, In m managers -> 40 <= ManagerMetrics.performanceScore m).
  { split.
    - intros E m Hm. apply ltb_false.
      destruct (isPoorPerformer m) eqn:Ep; [| exact Ep].
      assert (In m (filter isPoorPerformer managers)) by (now apply filter_In).
      rewrite E in H. destruct H.
    - intro H. apply filter_none. intros m Hm. apply ltb_false. now apply H. }
  assert (Htop : gtb (len (filter isTopPerformer managers)) 0 = false
                 <-> forall m, In m managers -> ManagerMetrics.performanceScore m <= 80).
  { rewrite <- not_true_iff_false, some_pass. split.
    - intros H m Hm. apply gtb_false.
      destruct (isTopPerformer m) eqn:Et; [| exact Et].
      exfalso. apply H. now exists m.
    - intros H (m & Hm & Ht). apply gtb_spec in Ht. specialize (H m Hm). lra. }
  assert (Hall : (forall m, In m managers ->
                    40 <= ManagerMetrics.performanceScore m
                    /\ ManagerMetrics.performanceScore m <= 80)
                 <-> filter isPoorPerformer managers = []
                     /\ gtb (len (filter isTopPerformer managers)) 0 = false).
  { rewrite Hpoor, Htop. split.
    - intro H. split; intros m Hm; now apply H.
    - intros [H1 H2] m Hm. split; [now apply H1 | now apply H2]. }
  rewrite Hall.
  destruct (ltb (PortfolioMetrics.avgForecastAccuracy portfolioMetrics) 60);
    destruct (gtb (PortfolioMetrics.genericResourcePct portfolioMetrics) 50);
    destruct (redShareAbove30 (RagDistribution.Red rag)
                (RagDistribution.Red rag + RagDistribution.Amber rag
                 + RagDistribution.Green rag));
    destruct (gtb (len (filter isTopPerformer managers)) 0);
    destruct (filter isPoorPerformer managers);
    cbn [app map]; split; try discriminate; try tauto;
    intros (? & ? & ? & ? & ?); discriminate.
Qed.

End Insights.

(** ** Insights on the portfolio of the same tasks *)

Section InsightPipeline.





End InsightPipeline.

(** ** Generic resources *)

Section GenericResources.

Lemma lowercase_app (a b : string) :
  lowercase (a ++ b) = (lowercase a ++ lowercase b)%string.
Proof. induction a as [| c r IH]; cbn; [reflexivity | now rewrite IH]. Qed.

Lemma prefix_iff (p s : string) :
  prefix p s = true <-> exists post, s = (p ++ post)%string.
Proof.
  revert s. induction p as [| c r IH]; intro s.
  - split; [intros _; now exists s | intros _; destruct s; reflexivity].
  - destruct s as [| d s']; cbn [prefix].
    + split; [discriminate | intros (post & H); discriminate].
    + destruct (ascii_dec c d) as [-> | Hne].
      * rewrite IH. split; intros (post & H); exists post.
        -- cbn. now rewrite H.
        -- cbn in H. now injection H.
      * split; [discriminate |]. intros (post & H). cbn in H. injection H. congruence.
Qed.

Lemma includes_iff (p s : string) :
  includes p s = true <-> exists pre post, s = (pre ++ p ++ post)%string.
Proof.
  induction s as [| c r IH]; cbn [includes]; rewrite orb_true_iff, prefix_iff.
  - split.
    + intros [(post & H) | H]; [now exists "", post | discriminate].
    + intros (pre & post & H). left. destruct pre; [now exists post | discriminate].
  - rewrite IH. split.
    + intros [(post & H) | (pre & post & H)].
      * now exists "", post.
      * exists (String c pre), post. cbn. now rewrite H.
    + intros (pre & post & H). destruct pre as [| d pre'].
      * left. now exists post.
      * right. cbn in H. injection H as _ H. now exists pre', post.
Qed.

(** X25: a task's resource is generic exactly when its name, with ASCII
    capitals lowered, contains one of the six markers "resource_", "generic",
    "tbd", "unassigned", "placeholder", "to be determined"; so a name that
    contains a marker written in any mix of cases is generic, and the empty
    name is not. *)
Theorem generic_is_a_marker_in_any_case (t : Task.t) :
  (isGeneric t = true
   <-> exists marker pre post,
         In marker genericPatterns
         /\ lowercase (Task.assignedResource t) = (pre ++ marker ++ post)%string)
  /\ (forall pre word post,
        In (lowercase word) genericPatterns ->
        Task.assignedResource t = (pre ++ word ++ post)%string ->
        isGeneric t = true)
  /\ (Task.assignedResource t = "" -> isGeneric t = false).
Proof.
  assert (Hiff : isGeneric t = true
                 <-> exists marker pre post,
                       In marker genericPatterns
                       /\ lowercase (Task.assignedResource t)
                          = (pre ++ marker ++ post)%string).
  { unfold isGeneric, test_any_ci. rewrite andb_true_iff, existsb_exists. split.
    - intros [_ (marker & Hin & Hinc)]. apply includes_iff in Hinc as (pre & post & H).
      now exists marker, pre, post.
    - intros (marker & pre & post & Hin & H). split.
      + unfold truthy. destruct (Task.assignedResource t) as [| c r]; [| reflexivity].
        exfalso. cbn in H. destruct pre; [| discriminate].
        cbn in Hin.
        repeat match goal with
               | Hc : _ \/ _ |- _ => destruct Hc as [Hc | Hc]
               | Hc : False |- _ => destruct Hc
               end; subst marker; discriminate.
      + exists marker. split; [exact Hin |]. apply includes_iff. now exists pre, post. }
  split; [exact Hiff |]. split.
  - intros pre word post Hin E. apply Hiff.
    exists (lowercase word), (lowercase pre), (lowercase post).
    split; [exact Hin |]. now rewrite E, !lowercase_app.
  - intro E. unfold isGeneric. now rewrite E.
Qed.

End GenericResources.

(** ** The order of the project records *)

Section RecordOrder.

Variable key : Task.t -> string.

Lemma uniq_snoc (l : list string) (x : string) :
  uniq (l ++ [x]) = if in_dec string_dec x l then uniq l else uniq l ++ [x].
Proof.
  induction l as [| y r IH]; [reflexivity |].
  cbn [app uniq]. rewrite IH.
  destruct (string_dec y x) as [-> | Hne].
  - destruct (in_dec string_dec x (x :: r)) as [_ | Hn]; [| exfalso; apply Hn; now left].
    destruct (in_dec string_dec x r) as [Hin | Hnot]; [reflexivity |].
    rewrite filter_app. cbn [filter]. rewrite String.eqb_refl. cbn [negb].
    now rewrite app_nil_r.
  - destruct (in_dec string_dec x r) as [Hin | Hnot];
      destruct (in_dec string_dec x (y :: r)) as [Hin' | Hnot'];
      try reflexivity.
    + exfalso. apply Hnot'. now right.
    + exfalso. destruct Hin' as [-> | Hin']; [now apply Hne | now apply Hnot].
    + rewrite filter_app. cbn [filter].
      assert (E : (x =? y)%string = false) by (apply String.eqb_neq; congruence).
      rewrite E. reflexivity.
Qed.

Lemma groupStep_keys (o o' : Dict (list Task.t)) (t : Task.t) :
  groupStep key (Ok o) t = Ok o' ->
  map fst o' = if in_dec string_dec (key t) (map fst o)
               then map fst o else map fst o ++ [key t].
Proof.
  unfold groupStep, bind, get. cbv zeta.
  destruct (own o (key t)) as [arr |] eqn:E.
  - intros [= <-]. rewrite keys_set, E.
    destruct (in_dec string_dec (key t) (map fst o)) as [_ | Hn]; [reflexivity |].
    apply own_none in Hn. congruence.
  - destruct (inherited (key t)); [discriminate |].
    intros [= <-]. rewrite keys_set, E.
    destruct (in_dec string_dec (key t) (map fst o)) as [Hin | _]; [| reflexivity].
    apply own_none in E. contradiction.
Qed.

Lemma fold_groupStep_keys (rest done : list Task.t) (o o' : Dict (list Task.t)) :
  map fst o = uniq (map key done) ->
  fold_left (groupStep key) rest (Ok o) = Ok o' ->
  map fst o' = uniq (map key (done ++ rest)).
Proof.
  revert done o. induction rest as [| t r IH]; intros done o Hk; cbn [fold_left].
  - intros [= <-]. now rewrite app_nil_r.
  - destruct (groupStep key (Ok o) t) as [o1 | e] eqn:E.
    + intro H. replace (done ++ t :: r) with ((done ++ [t]) ++ r)
        by (now rewrite <- app_assoc).
      apply (IH (done ++ [t]) o1); [| exact H].
      rewrite (groupStep_keys o o1 t E), map_app. cbn [map]. rewrite uniq_snoc, Hk.
      destruct (in_dec string_dec (key t) (uniq (map key done))) as [H1 | H1];
        destruct (in_dec string_dec (key t) (map key done)) as [H2 | H2];
        try reflexivity; exfalso.
      * apply H2. now apply uniq_in.
      * apply H1. now apply uniq_in.
    + rewrite fold_thrown. discriminate.
Qed.

(** The keys of the groups, in the order in which they are created. *)
Lemma groupBy_keys (tasks : list Task.t) (o : Dict (list Task.t)) :
  groupBy key tasks = Ok o -> map fst o = uniq (map key tasks).
Proof. exact (fold_groupStep_keys tasks [] [] o eq_refl). Qed.

Lemma entries_without_indices {V : Type} (o : Dict V) :
  (forall k, In k (map fst o) -> is_index k = false) -> entries o = o.
Proof.
  intro H. unfold entries.
  rewrite (filter_none (fun e => is_index (fst e)) o).
  - cbn [fold_right app]. apply forallb_filter_id. apply forallb_forall.
    intros e He. apply negb_true_iff, H. now apply in_map.
  - intros e He. apply H. now apply in_map.
Qed.

End RecordOrder.

(** X26: whenever [calculateProjectMetrics] returns and no project key
    reads as an array index (a canonical decimal numeral below 2^32 - 1), the
    project records come in the order in which their keys first occur among
    the tasks.  (Keys that read as array indices are moved to the front, in
    ascending numeric order, by [Object.entries].) *)
Theorem project_records_in_order_of_first_occurrence
  (tasks : list Task.t) (ms : list ProjectMetrics.t) :
  calculateProjectMetrics tasks = Ok ms ->
  (forall t, In t tasks -> is_index (projectKey t) = false) ->
  map ProjectMetrics.projectName ms = uniq (map projectKey tasks).
Proof.
  unfold calculateProjectMetrics, tasksByProject.
  destruct tasks as [| t0 r] eqn:Et; cbn [length Nat.eqb].
  - intros [= <-] _. reflexivity.
  - rewrite <- Et. destruct (groupBy projectKey tasks) as [o | e] eqn:E; cbn [bind];
      [| discriminate].
    intros [= <-] Hplain.
    pose proof (groupBy_keys projectKey tasks o E) as Hk.
    rewrite entries_without_indices.
    + rewrite map_map. rewrite <- Hk. apply map_ext. intro e.
      apply projectMetricsOf_projectName.
    + intros k Hin. rewrite Hk in Hin. apply uniq_in, in_map_iff in Hin as (t & <- & Ht).
      now apply Hplain.
Qed.

Lemma project_records_in_order_of_first_occurrence_example :
  exists ms, calculateProjectMetrics Cases.threeManagers = Ok ms
  /\ map ProjectMetrics.projectName ms = ["Apollo"; "Gemini"]
  /\ map ProjectMetrics.projectName ms = uniq (map projectKey Cases.threeManagers).
Proof.
  eexists. split; [reflexivity |]. split; [reflexivity |].
  apply (project_records_in_order_of_first_occurrence Cases.threeManagers _ eq_refl).
  intros t [<- | [<- | [<- | [<- | []]]]]; reflexivity.
Defined.

(** Projects called "10" and "9": the record of "9" comes first although
    "10" occurs first. *)
Lemma numeric_project_names_are_reordered :
  exists ms,
    calculateProjectMetrics
      [ Sample.task "Ana" "10" InProgress None None Green 80 false;
        Sample.task "Ana" "9" InProgress None None Green 80 false ] = Ok ms
    /\ map ProjectMetrics.projectName ms = ["9"; "10"].
Proof. eexists. split; reflexivity. Qed.
